(** * Multi-provider AI orchestration: a shallow embedding

    The development embeds the two orchestration modules of the backend,

    - [backend-enhanced/ai_multi_model.py]  (module [MultiModel] below):
      model registry, model selection, sequential failover with the usage
      ledger, cost estimation and statistics;
    - [backend-enhanced/ai_orchestrator.py] (module [Orchestrator] below):
      task routing, the parallel and the sequential protocol of
      [process_task], response parsing and confidence scoring;

    and proves or refutes the properties stated for them.

    Conventions.  A Python [str] is a Rocq [string], its characters lying
    below 256; the strings inside a decoded JSON document, which an escape
    can take beyond 255, are lists of code points.  A Python [int] is a [Z].
    In [ai_orchestrator.py] a Python [float] is a binary64 value: the
    rational it denotes, an infinity or NaN.  In [ai_multi_model.py], whose
    floats are costs and scores combined by arithmetic, a [float] is the
    rational number it denotes ([Q]) and the arithmetic is exact.  A call
    that can raise returns a sum whose left injection carries the
    exception.  Calls to the provider SDKs are answered by an oracle, and
    the calls made are logged. *)

From Stdlib Require Import ZArith QArith Qround String Ascii List Bool Lia.
From Stdlib Require Import Permutation Sorted.
From stdpp Require Import gmap strings list fin_maps.

Open Scope string_scope.
Open Scope Z_scope.

(** ** Python built-ins used by the source *)

Module Py.

(** [len(s)] *)
Definition len (s : string) : Z := Z.of_nat (String.length s).

(** [s.startswith(p)] *)
Fixpoint startswith (p s : string) : bool :=
  match p, s with
  | EmptyString, _ => true
  | String a p', String b s' => if Ascii.eqb a b then startswith p' s' else false
  | String _ _, EmptyString => false
  end.

(** Lowest offset at which [sub] occurs in [s]. *)
Fixpoint index_of (sub s : string) : option nat :=
  if startswith sub s then Some O
  else match s with
       | EmptyString => None
       | String _ s' => option_map S (index_of sub s')
       end.

(** Drop the first [n] characters. *)
Fixpoint skip (n : nat) (s : string) : string :=
  match n, s with
  | O, _ => s
  | S n', String _ s' => skip n' s'
  | S _, EmptyString => EmptyString
  end.

(** Keep the first [n] characters. *)
Fixpoint keep (n : nat) (s : string) : string :=
  match n, s with
  | O, _ => EmptyString
  | S n', String a s' => String a (keep n' s')
  | S _, EmptyString => EmptyString
  end.

(** [s.find(sub, start)] for [start >= 0]: the lowest index [>= start] at
    which [sub] occurs, [-1] when there is none. *)
Definition find (s sub : string) (start : Z) : Z :=
  if len s <? start then -1
  else match index_of sub (skip (Z.to_nat start) s) with
       | Some i => start + Z.of_nat i
       | None => -1
       end.

(** [sub in s] on strings. *)
Definition contains (s sub : string) : bool :=
  match index_of sub s with Some _ => true | None => false end.

(** A slice bound as Python normalises it: a negative bound counts from
    the end, and the result is clamped to [0, len]. *)
Definition clamp (n i : Z) : Z :=
  let j := if i <? 0 then i + n else i in
  Z.max 0 (Z.min n j).

(** [s[a:b]] *)
Definition slice (s : string) (a b : Z) : string :=
  let n := len s in
  let lo := clamp n a in
  let hi := clamp n b in
  keep (Z.to_nat (hi - lo)) (skip (Z.to_nat lo) s).

(** [c.isspace()] for a character below 256:
    TAB LF VT FF CR, FS GS RS US, SPACE, NEL and NBSP. *)
Definition isspace (c : ascii) : bool :=
  let n := N_of_ascii c in
  ((9 <=? n) && (n <=? 13) || (28 <=? n) && (n <=? 32)
   || (n =? 133) || (n =? 160))%N.

Fixpoint lstrip (s : string) : string :=
  match s with
  | String c s' => if isspace c then lstrip s' else s
  | EmptyString => EmptyString
  end.

Fixpoint rstrip (s : string) : string :=
  match s with
  | EmptyString => EmptyString
  | String c s' =>
      match rstrip s' with
      | EmptyString => if isspace c then EmptyString else String c EmptyString
      | t => String c t
      end
  end.

(** [s.strip()] *)
Definition strip (s : string) : string := rstrip (lstrip s).

(** A dict as an association list in insertion order, keys unique. *)
Section Dict.
Context {K V : Type} (eqb : K -> K -> bool).

(** [d.get(k)] / [k in d] / [d[k]] *)
Fixpoint dict_get (d : list (K * V)) (k : K) : option V :=
  match d with
  | [] => None
  | (k', v) :: d' => if eqb k k' then Some v else dict_get d' k
  end.

(** [d[k] = v]: an existing key keeps its position. *)
Fixpoint dict_set (d : list (K * V)) (k : K) (v : V) : list (K * V) :=
  match d with
  | [] => [(k, v)]
  | (k', v') :: d' =>
      if eqb k k' then (k, v) :: d' else (k', v') :: dict_set d' k v
  end.
End Dict.

(** [l.sort(key=key, reverse=True)]: the stable sort into descending key
    order; elements with equal keys keep their relative order. *)
Section Sort.
Context {A : Type} (key : A -> Q).

Fixpoint insert_desc (x : A) (l : list A) : list A :=
  match l with
  | [] => [x]
  | y :: l' =>
      if Qle_bool (key y) (key x) then x :: y :: l'
      else y :: insert_desc x l'
  end.

Fixpoint sort_desc (l : list A) : list A :=
  match l with
  | [] => []
  | x :: l' => insert_desc x (sort_desc l')
  end.
End Sort.

(** A Python [float]: a binary64 value.  A finite one is the rational it
    denotes, in lowest terms; negative zero is not told from zero. *)
Inductive float :=
| Fin (q : Q)
| PInf     (** [inf] *)
| NInf     (** [-inf] *)
| NaN.     (** [nan] *)

(** [a < b] on floats: false as soon as one of them is [nan]. *)
Definition float_ltb (a b : float) : bool :=
  match a, b with
  | NaN, _ | _, NaN => false
  | Fin x, Fin y => negb (Qle_bool y x)
  | Fin _, PInf => true
  | Fin _, NInf => false
  | PInf, _ => false
  | NInf, NInf => false
  | NInf, _ => true
  end.

(** [a <= b] *)
Definition float_leb (a b : float) : bool :=
  match a, b with
  | NaN, _ | _, NaN => false
  | Fin x, Fin y => Qle_bool x y
  | Fin _, PInf => true
  | Fin _, NInf => false
  | PInf, PInf => true
  | PInf, _ => false
  | NInf, _ => true
  end.

(** [a > b] *)
Definition float_gtb (a b : float) : bool := float_ltb b a.

Definition float_lt (a b : float) : Prop := float_ltb a b = true.
Definition float_le (a b : float) : Prop := float_leb a b = true.

(** [n / d] rounded to an integer, a tie going to the even one; for
    [0 <= n] and [0 < d]. *)
Definition round_half_even (n d : Z) : Z :=
  let q := n / d in
  match 2 * (n mod d) ?= d with
  | Lt => q
  | Gt => q + 1
  | Eq => if Z.even q then q else q + 1
  end.

(** The binary64 value nearest to [n / d], for [0 < n] and [0 < d], a tie
    going to the even significand; [None] when that value is beyond the
    largest float.  With [k] the binary exponent of [n / d], the spacing of
    the floats around it is [2 ^ e] for [e = max (k - 52) (-1074)]. *)
Definition nearest_double (n d : Z) : option Q :=
  let k0 := Z.log2 n - Z.log2 d in
  let reaches := if 0 <=? k0 then d * 2 ^ k0 <=? n else d <=? n * 2 ^ (- k0) in
  let k := if reaches then k0 else k0 - 1 in
  let e := Z.max (k - 52) (-1074) in
  let m := if 0 <=? e then round_half_even n (d * 2 ^ e)
           else round_half_even (n * 2 ^ (- e)) d in
  if (971 <? e) || ((e =? 971) && (2 ^ 53 <=? m)) then None
  else Some (if 0 <=? e then inject_Z (m * 2 ^ e)
             else Qred (m # Z.to_pos (2 ^ (- e)))).

(** The rational [q] as a float: the nearest binary64 value, an infinity
    beyond the largest one.  This is how a decimal numeral is read. *)
Definition double (q : Q) : float :=
  match Qnum q with
  | 0 => Fin 0
  | Zpos n =>
      match nearest_double (Zpos n) (Zpos (Qden q)) with
      | Some x => Fin x
      | None => PInf
      end
  | Zneg n =>
      match nearest_double (Zpos n) (Zpos (Qden q)) with
      | Some x => Fin (- x)
      | None => NInf
      end
  end.

(** [float(n)] on an [int]: the nearest binary64 value; [None] stands for
    [OverflowError]. *)
Definition float_of_int (n : Z) : option float :=
  match double (inject_Z n) with
  | Fin x => Some (Fin x)
  | _ => None
  end.

(** [max(l, key=key)] on a non-empty list, the keys being floats: a later
    element replaces the running maximum only when its key is strictly
    greater, which it never is when either key is [nan]. *)
Section Max.
Context {A : Type} (key : A -> float).

Definition max_step (best x : A) : A :=
  if float_gtb (key x) (key best) then x else best.

Definition max_by (x : A) (l : list A) : A := fold_left max_step l x.
End Max.

End Py.

(** ** [ai_multi_model.py] *)

Module MultiModel.

(** [class ModelType(str, Enum)] *)
Inductive ModelType := VISION | AUDIO | ANALYSIS | SUMMARY | CODE.

(** [class ModelProvider(str, Enum)] *)
Inductive ModelProvider := ANTHROPIC | OPENAI | GOOGLE.

Definition ModelProvider_value (p : ModelProvider) : string :=
  match p with
  | ANTHROPIC => "anthropic"
  | OPENAI => "openai"
  | GOOGLE => "google"
  end.

Definition ModelType_eqb (a b : ModelType) : bool :=
  match a, b with
  | VISION, VISION | AUDIO, AUDIO | ANALYSIS, ANALYSIS
  | SUMMARY, SUMMARY | CODE, CODE => true
  | _, _ => false
  end.

(** [@dataclass class ModelConfig] *)
Record ModelConfig := mkModelConfig {
  provider : ModelProvider;
  model_id : string;
  max_tokens : Z;
  temperature : Q;
  cost_per_1k_tokens : Q;
  speed_score : Z;
  quality_score : Z;
  is_available : bool
}.

Definition Registry := list (ModelType * list ModelConfig).

(** [MODEL_REGISTRY] *)
Definition MODEL_REGISTRY : Registry :=
  [ (VISION,
     [ mkModelConfig ANTHROPIC "claude-3-5-sonnet-20241022" 4096 0.7 0.003 8 10 true;
       mkModelConfig OPENAI "gpt-4-vision-preview" 4096 0.7 0.01 6 9 true;
       mkModelConfig GOOGLE "gemini-pro-vision" 4096 0.7 0.00025 9 8 true ]);
    (AUDIO,
     [ mkModelConfig OPENAI "whisper-1" 0 0.7 0.006 7 10 true ]);
    (ANALYSIS,
     [ mkModelConfig ANTHROPIC "claude-3-opus-20240229" 4096 0.5 0.015 6 10 true;
       mkModelConfig OPENAI "gpt-4-turbo-preview" 4096 0.5 0.01 8 9 true;
       mkModelConfig GOOGLE "gemini-1.5-pro-latest" 8192 0.5 0.00125 9 8 true ]);
    (SUMMARY,
     [ mkModelConfig ANTHROPIC "claude-3-haiku-20240307" 4096 0.3 0.00025 10 8 true;
       mkModelConfig OPENAI "gpt-3.5-turbo-16k" 4096 0.3 0.0015 9 7 true;
       mkModelConfig GOOGLE "gemini-pro" 4096 0.3 0.00025 9 7 true ]);
    (CODE,
     [ mkModelConfig ANTHROPIC "claude-3-5-sonnet-20241022" 4096 0.0 0.003 8 10 true;
       mkModelConfig OPENAI "gpt-4" 4096 0.0 0.03 7 9 true ]) ].

(** [AIOrchestrator._select_models]: the registry entry of the type ([[]]
    when it has none), filtered by availability and cost, then sorted by
    the preference. *)
Definition _select_models (registry : Registry) (model_type : ModelType)
    (prefer_speed prefer_quality : bool) (max_cost : option Q) : list ModelConfig :=
  let models := default [] (Py.dict_get ModelType_eqb registry model_type) in
  let available :=
    List.filter (fun m => is_available m
                          && match max_cost with
                             | None => true
                             | Some max_cost => Qle_bool (cost_per_1k_tokens m) max_cost
                             end) models in
  match available with
  | [] => []
  | _ =>
      if prefer_speed then
        Py.sort_desc (fun m => inject_Z (speed_score m)) available
      else if prefer_quality then
        Py.sort_desc (fun m => inject_Z (quality_score m)) available
      else
        Py.sort_desc (fun m => (inject_Z (quality_score m + speed_score m) / 2)%Q)
                     available
  end.

(** The performance-tracking fields of [AIOrchestrator]: the usage ledger. *)
Record Ledger := mkLedger {
  request_count : gmap string Z;
  error_count : gmap string Z;
  total_cost : Q
}.

(** [AIOrchestrator.__init__] *)
Definition init : Ledger := mkLedger ∅ ∅ 0.

(** [f"{config.provider.value}/{config.model_id}"] *)
Definition ledger_key (config : ModelConfig) : string :=
  ModelProvider_value (provider config) ++ "/" ++ model_id config.

(** [AIOrchestrator._track_success] *)
Definition _track_success (self : Ledger) (config : ModelConfig) : Ledger :=
  let key := ledger_key config in
  mkLedger (<[key := default 0 (request_count self !! key) + 1]> (request_count self))
           (error_count self) (total_cost self).

(** [AIOrchestrator._track_error] *)
Definition _track_error (self : Ledger) (config : ModelConfig) : Ledger :=
  let key := ledger_key config in
  mkLedger (request_count self)
           (<[key := default 0 (error_count self !! key) + 1]> (error_count self))
           (total_cost self).

(** The amount [_estimate_cost] computes. *)
Definition cost_of (prompt response : string) (config : ModelConfig) : Q :=
  let total_tokens := (inject_Z (Py.len prompt + Py.len response) / 4)%Q in
  ((total_tokens / 1000) * cost_per_1k_tokens config)%Q.

(** [AIOrchestrator._estimate_cost]: adds the cost to the running total and
    returns it. *)
Definition _estimate_cost (self : Ledger) (prompt response : string)
    (config : ModelConfig) : Q * Ledger :=
  let cost := cost_of prompt response config in
  (cost, mkLedger (request_count self) (error_count self) (total_cost self + cost)%Q).

(** [sum(d.values())] *)
Definition sum_values (d : gmap string Z) : Z :=
  map_fold (fun _ v acc => v + acc) 0 d.

(** [AIOrchestrator._calculate_success_rate] *)
Definition _calculate_success_rate (self : Ledger) : Q :=
  let total_requests := sum_values (request_count self) in
  let total_errors := sum_values (error_count self) in
  if total_requests + total_errors =? 0 then 1%Q
  else (inject_Z total_requests / inject_Z (total_requests + total_errors))%Q.

(** The dict [get_stats] returns. *)
Record Stats := mkStats {
  total_requests : Z;
  total_errors : Z;
  total_cost_usd : Q;
  requests_by_model : gmap string Z;
  errors_by_model : gmap string Z;
  success_rate : Q
}.

(** [round(x, 4)] on the rational [x]: the nearest multiple of 1/10000,
    a tie going to the even one. *)
Definition round4 (x : Q) : Q :=
  let y := (x * 10000)%Q in
  let f := Qfloor y in
  let r := (y - inject_Z f)%Q in
  let n := if Qle_bool r (1 # 2)
           then (if Qle_bool (1 # 2) r then (if Z.even f then f else f + 1) else f)
           else f + 1 in
  (inject_Z n / 10000)%Q.

(** [AIOrchestrator.get_stats] *)
Definition get_stats (self : Ledger) : Stats :=
  mkStats (sum_values (request_count self))
          (sum_values (error_count self))
          (round4 (total_cost self))
          (request_count self)
          (error_count self)
          (_calculate_success_rate self).

(** Whatever a provider SDK call raised, with its text. *)
Inductive ProviderError := mkProviderError (cause : string).

(** The exceptions [generate] raises. *)
Inductive error :=
| NoAvailableModels (model_type : ModelType)
    (** [ValueError(f"No available models for type: {model_type}")] *)
| AllModelsFailed (model_type : ModelType) (last_error : option ProviderError)
    (** [RuntimeError(f"All models failed for {model_type}. Last error: {last_error}")] *).

(** The provider SDKs: each call returns the generated text or raises. *)
Record Providers := mkProviders {
  _generate_anthropic : string -> ModelConfig -> ProviderError + string;
  _generate_openai : string -> ModelConfig -> ProviderError + string;
  _generate_google : string -> ModelConfig -> ProviderError + string
}.

(** The dict [generate] returns ([latency_ms], a wall-clock reading, is
    left out). *)
Record GenResult := mkGenResult {
  response : string;
  model_used : string;
  provider_used : string;
  cost : Q;
  success : bool
}.

(** The provider dispatch inside the loop of [generate]. *)
Definition route (sdk : Providers) (prompt : string) (model_config : ModelConfig)
    : ProviderError + string :=
  match provider model_config with
  | ANTHROPIC => _generate_anthropic sdk prompt model_config
  | OPENAI => _generate_openai sdk prompt model_config
  | GOOGLE => _generate_google sdk prompt model_config
  end.

(** The state [generate] runs in: the ledger and the log of the provider
    calls made so far (ledger keys, latest last). *)
Record State := mkState {
  ledger : Ledger;
  calls : list string
}.

(** The loop [for model_config in models] of [generate], with the
    [raise RuntimeError] that follows it. *)
Fixpoint try_models (sdk : Providers) (prompt : string) (model_type : ModelType)
    (models : list ModelConfig) (last_error : option ProviderError) (st : State)
    : (error + GenResult) * State :=
  match models with
  | [] => (inl (AllModelsFailed model_type last_error), st)
  | model_config :: rest =>
      let called := (calls st ++ [ledger_key model_config])%list in
      match route sdk prompt model_config with
      | inr response =>
          let self1 := _track_success (ledger st) model_config in
          let '(cost, self2) := _estimate_cost self1 prompt response model_config in
          (inr (mkGenResult response (model_id model_config)
                            (ModelProvider_value (provider model_config)) cost true),
           mkState self2 called)
      | inl e =>
          try_models sdk prompt model_type rest (Some e)
                     (mkState (_track_error (ledger st) model_config) called)
      end
  end.

(** [AIOrchestrator.generate] (its [max_retries] argument is not used by
    the source). *)
Definition generate (registry : Registry) (sdk : Providers) (st : State)
    (prompt : string) (model_type : ModelType)
    (prefer_speed prefer_quality : bool) (max_cost : option Q)
    : (error + GenResult) * State :=
  let models := _select_models registry model_type prefer_speed prefer_quality max_cost in
  match models with
  | [] => (inl (NoAvailableModels model_type), st)
  | _ => try_models sdk prompt model_type models None st
  end.

End MultiModel.

(** ** JSON values, and the library calls on them *)

Module Json.

(** The exceptions that occur below. *)
Inductive exn :=
| ProviderError (cause : string)  (** raised by a provider SDK call *)
| ValueError
| TypeError
| AttributeError
| IndexError
| KeyError
| OverflowError
| RecursionError.

(** The strings inside a decoded document: an escape can name any code
    point, so they are lists of code points. *)
Definition ustring := list N.

(** The code points of a [str] whose characters lie below 256. *)
Definition codes (s : string) : ustring :=
  List.map N_of_ascii (list_ascii_of_string s).

Fixpoint ustring_eqb (a b : ustring) : bool :=
  match a, b with
  | [], [] => true
  | x :: a', y :: b' => (x =? y)%N && ustring_eqb a' b'
  | _, _ => false
  end.

(** [p] is a prefix of [s]. *)
Fixpoint ustring_startswith (p s : ustring) : bool :=
  match p, s with
  | [], _ => true
  | x :: p', y :: s' => (x =? y)%N && ustring_startswith p' s'
  | _ :: _, [] => false
  end.

(** [sub in s] on such strings. *)
Fixpoint ustring_contains (s sub : ustring) : bool :=
  ustring_startswith sub s
  || match s with
     | [] => false
     | _ :: s' => ustring_contains s' sub
     end.

(** What [json.loads] returns: [None], a [bool], an [int], a [float], a
    [str], a [list] or a [dict] (insertion-ordered, keys unique). *)
#[warnings="-register-all"] Inductive json :=
| JNull
| JBool (b : bool)
| JInt (n : Z)
| JFloat (x : Py.float)
| JStr (s : ustring)
| JArr (items : list json)
| JObj (fields : list (ustring * json)).

(** [d.get(k)] on a decoded dict. *)
Definition get (d : list (ustring * json)) (k : string) : option json :=
  Py.dict_get ustring_eqb d (codes k).

(** [isinstance(v, dict)] *)
Definition is_dict (v : json) : bool :=
  match v with JObj _ => true | _ => false end.

(** [bool(v)]: Python's truth value. *)
Definition truthy (v : json) : bool :=
  match v with
  | JNull => false
  | JBool b => b
  | JInt n => negb (n =? 0)
  | JFloat (Py.Fin q) => negb (Qeq_bool q 0)
  | JFloat _ => true
  | JStr s => match s with [] => false | _ => true end
  | JArr l => match l with [] => false | _ => true end
  | JObj d => match d with [] => false | _ => true end
  end.

(** What [json.loads] does with a [str]: it returns a value, raises
    [JSONDecodeError], or raises something else. *)
Inductive loaded :=
| Loaded (v : json)
| JSONDecodeError
| Raises (e : exn).

(** The library calls the orchestrator relies on.  [json_loads] is
    [json.loads] on a [str]; [float_of_str] is [float] on a [str], [None]
    standing for [ValueError]. *)
Class PyLib := mkPyLib {
  json_loads : string -> loaded;
  float_of_str : ustring -> option Py.float
}.

(** *** A decoder for the library calls

    The functions below decode a text whose characters lie below 256 as
    [json.loads] does, and read a numeral as [float] does (CPython 3.11:
    the C scanner of [json], [float_from_string] and its helpers). *)

Definition code (c : ascii) : N := N_of_ascii c.

Definition is_digit (c : ascii) : bool := ((48 <=? code c) && (code c <=? 57))%N.

Definition digit_val (c : ascii) : Z := Z.of_N (code c) - 48.

(** JSON whitespace: space, TAB, LF, CR. *)
Definition is_ws (c : ascii) : bool :=
  ((code c =? 32) || (code c =? 9) || (code c =? 10) || (code c =? 13))%N.

Fixpoint skip_ws (s : string) : string :=
  match s with
  | String c s' => if is_ws c then skip_ws s' else s
  | EmptyString => EmptyString
  end.

(** The longest prefix of digits, and what follows it. *)
Fixpoint span_digits (s : string) : string * string :=
  match s with
  | String c s' =>
      if is_digit c then let '(d, r) := span_digits s' in (String c d, r)
      else (EmptyString, s)
  | EmptyString => (EmptyString, EmptyString)
  end.

Fixpoint digits_value (acc : Z) (d : string) : Z :=
  match d with
  | String c d' => digits_value (10 * acc + digit_val c) d'
  | EmptyString => acc
  end.

(** The float a decimal numeral denotes: [m * 10^e] rounded to binary64,
    [m] being the value of the [len] digits of the numeral.  A numeral far
    beyond the range of the floats is settled without computing the power:
    with [e > 400] a non-zero value exceeds every float, and with
    [len + e < -400] it rounds to zero. *)
Definition decimal (neg : bool) (m : Z) (len : Z) (e : Z) : Py.float :=
  if m =? 0 then Py.Fin 0
  else if 400 <? e then (if neg then Py.NInf else Py.PInf)
  else if len + e <? -400 then Py.Fin 0
  else
    let m := if neg then - m else m in
    Py.double (if 0 <=? e then inject_Z (m * 10 ^ e)
               else (m # Z.to_pos (10 ^ (- e)))).

(** An optional exponent part: [e] or [E], an optional sign, digits;
    absent when no digit follows. *)
Definition exponent_part (s : string) : option (Z * string) :=
  match s with
  | String c s1 =>
      if (code c =? 101)%N || (code c =? 69)%N then
        let '(neg, s2) :=
          match s1 with
          | String c' s' =>
              if (code c' =? 45)%N then (true, s')
              else if (code c' =? 43)%N then (false, s')
              else (false, s1)
          | EmptyString => (false, s1)
          end in
        match span_digits s2 with
        | (EmptyString, _) => None
        | (d, r) => Some (if neg then - digits_value 0 d else digits_value 0 d, r)
        end
      else None
  | EmptyString => None
  end.

(** [sys.int_info.default_max_str_digits]: an integer numeral with more
    digits makes [int] raise [ValueError]. *)
Definition max_str_digits : Z := 4300.

(** What reading a piece of the text gives: a value and the rest of the
    text, a syntax error, or another exception. *)
Inductive parsed (A : Type) :=
| Got (a : A) (rest : string)
| Bad
| Threw (e : exn).
Arguments Got {A} a rest.
Arguments Bad {A}.
Arguments Threw {A} e.

(** A JSON number, matched as far as it goes: an optional minus sign; a
    single zero or digits not starting with zero; a fraction (a dot and
    digits) if one follows; an exponent if one follows.  With a fraction or
    an exponent it is a [float], otherwise an [int]. *)
Definition parse_number (s : string) : parsed json :=
  let '(neg, s0) :=
    match s with
    | String c s' => if (code c =? 45)%N then (true, s') else (false, s)
    | EmptyString => (false, s)
    end in
  let '(ip, r0) :=
    match s0 with
    | String c s' =>
        if (code c =? 48)%N then (String c EmptyString, s') else span_digits s0
    | EmptyString => (EmptyString, EmptyString)
    end in
  match ip with
  | EmptyString => Bad
  | _ =>
      let '(fp, r1) :=
        match r0 with
        | String c s' =>
            if (code c =? 46)%N then
              match span_digits s' with
              | (EmptyString, _) => (EmptyString, r0)
              | (d, r) => (d, r)
              end
            else (EmptyString, r0)
        | EmptyString => (EmptyString, r0)
        end in
      match fp, exponent_part r1 with
      | EmptyString, None =>
          if max_str_digits <? Py.len ip then Threw ValueError
          else
            let m := digits_value 0 ip in
            Got (JInt (if neg then - m else m)) r1
      | _, ex =>
          let '(e, r2) :=
            match ex with
            | Some (e, r) => (e, r)
            | None => (0, r1)
            end in
          Got (JFloat (decimal neg (digits_value 0 (ip ++ fp))
                               (Py.len (ip ++ fp)) (e - Py.len fp))) r2
      end
  end.

Definition hex_val (c : ascii) : option N :=
  let n := code c in
  (if (48 <=? n) && (n <=? 57) then Some (n - 48)
   else if (97 <=? n) && (n <=? 102) then Some (n - 87)
   else if (65 <=? n) && (n <=? 70) then Some (n - 55)
   else None)%N.

(** The character an escape letter stands for. *)
Definition escape_char (e : ascii) : option N :=
  let n := code e in
  (if n =? 34 then Some 34        (* quote *)
   else if n =? 92 then Some 92   (* backslash *)
   else if n =? 47 then Some 47   (* slash *)
   else if n =? 98 then Some 8    (* b: backspace *)
   else if n =? 102 then Some 12  (* f: form feed *)
   else if n =? 110 then Some 10  (* n: line feed *)
   else if n =? 114 then Some 13  (* r: carriage return *)
   else if n =? 116 then Some 9   (* t: tab *)
   else None)%N.

(** The code point of the four hex digits of a unicode escape. *)
Definition hex4 (a b c d : ascii) : option N :=
  match hex_val a, hex_val b, hex_val c, hex_val d with
  | Some x, Some y, Some z, Some w => Some (((x * 16 + y) * 16 + z) * 16 + w)%N
  | _, _, _, _ => None
  end.

Definition cons_to (n : N) (r : option (ustring * string)) : option (ustring * string) :=
  match r with
  | Some (t, rest) => Some (n :: t, rest)
  | None => None
  end.

(** After the escape of a high surrogate [hi]: when another unicode
    escape follows, its four hex digits are read, and a low surrogate is
    joined with [hi] into one code point; any other code point is left for
    the next step.  The result is the code point and the text to go on
    with; [None] when the digits of the second escape are not hex
    digits. *)
Definition join_surrogate (hi : N) (s : string) : option (N * string) :=
  match s with
  | String b (String u s1) =>
      if (code b =? 92)%N && (code u =? 117)%N then
        match s1 with
        | String h1 (String h2 (String h3 (String h4 s2))) =>
            match hex4 h1 h2 h3 h4 with
            | Some lo =>
                if (56320 <=? lo)%N && (lo <=? 57343)%N
                then Some (65536 + (hi - 55296) * 1024 + (lo - 56320), s2)%N
                else Some (hi, s)
            | None => None
            end
        | _ => Some (hi, s)
        end
      else Some (hi, s)
  | _ => Some (hi, s)
  end.

(** The body of a JSON string, after the opening quote: up to the closing
    quote, escapes decoded; a control character ends the decoding in
    failure. *)
Fixpoint parse_string (fuel : nat) (s : string) : option (ustring * string) :=
  match fuel with
  | O => None
  | S fuel' =>
      match s with
      | EmptyString => None
      | String c s' =>
          if (code c =? 34)%N then Some ([], s')
          else if (code c <? 32)%N then None
          else if (code c =? 92)%N then
            match s' with
            | String e s2 =>
                if (code e =? 117)%N then
                  match s2 with
                  | String h1 (String h2 (String h3 (String h4 s3))) =>
                      match hex4 h1 h2 h3 h4 with
                      | Some n =>
                          if (55296 <=? n)%N && (n <=? 56319)%N then
                            match join_surrogate n s3 with
                            | Some (n', s4) => cons_to n' (parse_string fuel' s4)
                            | None => None
                            end
                          else cons_to n (parse_string fuel' s3)
                      | None => None
                      end
                  | _ => None
                  end
                else
                  match escape_char e with
                  | Some a => cons_to a (parse_string fuel' s2)
                  | None => None
                  end
            | EmptyString => None
            end
          else cons_to (code c) (parse_string fuel' s')
      end
  end.

Definition is_char (n : N) (c : ascii) : bool := (code c =? n)%N.

Definition string_of (s : string) : parsed ustring :=
  match parse_string (S (String.length s)) s with
  | Some (t, r) => Got t r
  | None => Bad
  end.

(** One JSON value at the head of [s]; the caller has skipped the
    whitespace before it.  [parse_members] reads the members of an object
    from a key on, [parse_elements] the elements of an array.  [room] is
    the nesting still allowed: the scanner enters a recursive call for
    each object and each array, and raises [RecursionError] when the
    interpreter's recursion limit is reached. *)
Fixpoint parse_value (fuel : nat) (room : nat) (s : string) {struct fuel} : parsed json :=
  match fuel with
  | O => Bad
  | S fuel' =>
      match s with
      | EmptyString => Bad
      | String c s' =>
          if is_char 34 c then
            match string_of s' with
            | Got t r => Got (JStr t) r
            | Bad => Bad
            | Threw e => Threw e
            end
          else if is_char 123 c then
            match room with
            | O => Threw RecursionError
            | S room' =>
                match skip_ws s' with
                | String c1 s2 =>
                    if is_char 125 c1 then Got (JObj []) s2
                    else parse_members fuel' room' (String c1 s2) []
                | EmptyString => Bad
                end
            end
          else if is_char 91 c then
            match room with
            | O => Threw RecursionError
            | S room' =>
                match skip_ws s' with
                | String c1 s2 =>
                    if is_char 93 c1 then Got (JArr []) s2
                    else parse_elements fuel' room' (String c1 s2) []
                | EmptyString => Bad
                end
            end
          else if Py.startswith "null" s then Got JNull (Py.skip 4 s)
          else if Py.startswith "true" s then Got (JBool true) (Py.skip 4 s)
          else if Py.startswith "false" s then Got (JBool false) (Py.skip 5 s)
          else if Py.startswith "NaN" s then Got (JFloat Py.NaN) (Py.skip 3 s)
          else if Py.startswith "Infinity" s then Got (JFloat Py.PInf) (Py.skip 8 s)
          else if Py.startswith "-Infinity" s then Got (JFloat Py.NInf) (Py.skip 9 s)
          else parse_number s
      end
  end
with parse_members (fuel : nat) (room : nat) (s : string) (acc : list (ustring * json))
    {struct fuel} : parsed json :=
  match fuel with
  | O => Bad
  | S fuel' =>
      match s with
      | String c s' =>
          if is_char 34 c then
            match string_of s' with
            | Got k r =>
                match skip_ws r with
                | String c2 r2 =>
                    if is_char 58 c2 then
                      match parse_value fuel' room (skip_ws r2) with
                      | Got v r3 =>
                          let acc' := Py.dict_set ustring_eqb acc k v in
                          match skip_ws r3 with
                          | String c3 r4 =>
                              if is_char 44 c3 then
                                parse_members fuel' room (skip_ws r4) acc'
                              else if is_char 125 c3 then Got (JObj acc') r4
                              else Bad
                          | EmptyString => Bad
                          end
                      | Bad => Bad
                      | Threw e => Threw e
                      end
                    else Bad
                | EmptyString => Bad
                end
            | Bad => Bad
            | Threw e => Threw e
            end
          else Bad
      | EmptyString => Bad
      end
  end
with parse_elements (fuel : nat) (room : nat) (s : string) (acc : list json)
    {struct fuel} : parsed json :=
  match fuel with
  | O => Bad
  | S fuel' =>
      match parse_value fuel' room s with
      | Got v r =>
          let acc' := (acc ++ [v])%list in
          match skip_ws r with
          | String c r2 =>
              if is_char 44 c then parse_elements fuel' room (skip_ws r2) acc'
              else if is_char 93 c then Got (JArr acc') r2
              else Bad
          | EmptyString => Bad
          end
      | Bad => Bad
      | Threw e => Threw e
      end
  end.

(** [json.loads(s)]: one value, whitespace allowed around it, nothing
    else.  [room] is the nesting of objects and arrays the interpreter's
    recursion limit leaves at the call. *)
Definition loads (room : nat) (s : string) : loaded :=
  match parse_value (2 * String.length s + 4) room (skip_ws s) with
  | Got v r => match skip_ws r with EmptyString => Loaded v | _ => JSONDecodeError end
  | Bad => JSONDecodeError
  | Threw e => Raises e
  end.

(** [c.isspace()] for a code point beyond 127 (Unicode 14). *)
Definition is_unicode_space (n : N) : bool :=
  existsb (N.eqb n)
  [
    133; 160; 5760; 8192; 8193; 8194; 8195; 8196; 8197; 8198; 8199; 8200;
    8201; 8202; 8232; 8233; 8239; 8287; 12288 ]%N.

(** The code points beyond 127 whose decimal digit value is zero; the
    nine code points after each are the digits one to nine of the same
    script (Unicode 14). *)
Definition unicode_zeros : list N :=
  [
    1632; 1776; 1984; 2406; 2534; 2662; 2790; 2918; 3046; 3174; 3302; 3430;
    3558; 3664; 3792; 3872; 4160; 4240; 6112; 6160; 6470; 6608; 6784; 6800;
    6992; 7088; 7232; 7248; 42528; 43216; 43264; 43472; 43504; 43600; 44016;
    65296; 66720; 68912; 69734; 69872; 69942; 70096; 70384; 70736; 70864;
    71248; 71360; 71472; 71904; 72016; 72784; 73040; 73120; 92768; 92864;
    93008; 120782; 120792; 120802; 120812; 120822; 123200; 123632; 125264;
    130032 ]%N.

(** The digit a code point beyond 127 stands for, if any. *)
Definition unicode_decimal (n : N) : option N :=
  match List.find (fun z => (z <=? n) && (n <? z + 10))%N unicode_zeros with
  | Some z => Some (n - z)%N
  | None => None
  end.

(** The first step of [float] on a [str] that is not all ASCII: each
    space becomes a blank and each decimal digit its ASCII digit; any other
    code point beyond 126 makes the numeral invalid. *)
Fixpoint to_ascii_numeral (s : ustring) : option string :=
  match s with
  | [] => Some EmptyString
  | n :: s' =>
      let c := if (n <? 127)%N then Some (ascii_of_N n)
               else if is_unicode_space n then Some (ascii_of_N 32)
               else match unicode_decimal n with
                    | Some d => Some (ascii_of_N (48 + d))
                    | None => None
                    end in
      match c, to_ascii_numeral s' with
      | Some c, Some t => Some (String c t)
      | _, _ => None
      end
  end.

(** The second step: an underscore is allowed between two digits only,
    and is dropped. *)
Fixpoint drop_underscores (prev : option ascii) (s : string) : option string :=
  let is_digit_opt := fun p => match p with Some c => is_digit c | None => false end in
  match s with
  | EmptyString =>
      match prev with
      | Some p => if is_char 95 p then None else Some EmptyString
      | None => Some EmptyString
      end
  | String c s' =>
      if is_char 95 c then
        if is_digit_opt prev then drop_underscores (Some c) s' else None
      else if (match prev with Some p => is_char 95 p | None => false end)
              && negb (is_digit c) then None
      else match drop_underscores (Some c) s' with
           | Some t => Some (String c t)
           | None => None
           end
  end.

(** The blanks [float] strips: TAB LF VT FF CR and SPACE. *)
Definition is_c_space (c : ascii) : bool :=
  ((9 <=? code c) && (code c <=? 13) || (code c =? 32))%N.

Fixpoint lstrip_c (s : string) : string :=
  match s with
  | String c s' => if is_c_space c then lstrip_c s' else s
  | EmptyString => EmptyString
  end.

Fixpoint rstrip_c (s : string) : string :=
  match s with
  | EmptyString => EmptyString
  | String c s' =>
      match rstrip_c s' with
      | EmptyString => if is_c_space c then EmptyString else String c EmptyString
      | t => String c t
      end
  end.

Definition lower (c : ascii) : ascii :=
  if ((65 <=? code c) && (code c <=? 90))%N then ascii_of_N (code c + 32) else c.

Fixpoint lower_all (s : string) : string :=
  match s with
  | String c s' => String (lower c) (lower_all s')
  | EmptyString => EmptyString
  end.

(** The exponent of a float numeral: [e] or [E], a sign, digits; absent
    when no digit follows. *)
Definition float_exponent (s : string) : option (Z * string) := exponent_part s.

(** The third step: a sign, then [inf], [infinity] or [nan] in any case,
    or a decimal numeral, [digits [. [digits]] | . digits] with an optional
    exponent; nothing may follow. *)
Definition parse_float (s : string) : option Py.float :=
  let '(neg, s0) :=
    match s with
    | String c s' =>
        if is_char 45 c then (true, s')
        else if is_char 43 c then (false, s')
        else (false, s)
    | EmptyString => (false, s)
    end in
  let '(ip, r0) := span_digits s0 in
  let '(fp, r1) :=
    match r0 with
    | String c s' => if is_char 46 c then span_digits s' else (EmptyString, r0)
    | EmptyString => (EmptyString, r0)
    end in
  match (ip ++ fp)%string with
  | EmptyString =>
      let w := lower_all s0 in
      if String.eqb w "inf" || String.eqb w "infinity"
      then Some (if neg then Py.NInf else Py.PInf)
      else if String.eqb w "nan" then Some Py.NaN
      else None
  | ds =>
      let '(e, r2) :=
        match float_exponent r1 with
        | Some (e, r) => (e, r)
        | None => (0, r1)
        end in
      match r2 with
      | EmptyString => Some (decimal neg (digits_value 0 ds) (Py.len ds) (e - Py.len fp))
      | _ => None
      end
  end.

(** [float(s)] on a [str]. *)
Definition float_str (s : ustring) : option Py.float :=
  match to_ascii_numeral s with
  | Some a =>
      match drop_underscores None a with
      | Some b => parse_float (rstrip_c (lstrip_c b))
      | None => None
      end
  | None => None
  end.

(** The nesting [json.loads] decodes when called at module level, on an
    otherwise empty stack, under the default recursion limit of 1000. *)
Definition default_room : nat := 995.

(** The library, as decoded above. *)
Definition CPython : PyLib := mkPyLib (loads default_room) float_str.

End Json.

(** ** [ai_orchestrator.py] *)

Module Orchestrator.
Import Json.

(** [class AIModel(str, Enum)] *)
Inductive AIModel :=
| CLAUDE_OPUS | CLAUDE_SONNET | CLAUDE_HAIKU
| GPT4_TURBO | GPT4_VISION | GPT35_TURBO
| GEMINI_PRO | GEMINI_FLASH.

Definition AIModel_value (m : AIModel) : string :=
  match m with
  | CLAUDE_OPUS => "claude-3-opus-20240229"
  | CLAUDE_SONNET => "claude-3-5-sonnet-20241022"
  | CLAUDE_HAIKU => "claude-3-haiku-20240307"
  | GPT4_TURBO => "gpt-4-turbo-preview"
  | GPT4_VISION => "gpt-4-vision-preview"
  | GPT35_TURBO => "gpt-3.5-turbo"
  | GEMINI_PRO => "gemini-1.5-pro"
  | GEMINI_FLASH => "gemini-1.5-flash"
  end.

(** Members of a [str] enumeration compare as their values do. *)
Definition AIModel_eqb (a b : AIModel) : bool :=
  String.eqb (AIModel_value a) (AIModel_value b).

(** [class TaskType(str, Enum)] *)
Inductive TaskType :=
| TRANSCRIPTION | SENTIMENT_ANALYSIS | ACTION_EXTRACTION | SUMMARY_GENERATION
| SPEAKER_DIARIZATION | SCREENSHOT_ANALYSIS | DECISION_EXTRACTION
| TOPIC_CLASSIFICATION | DEADLINE_PREDICTION | MEETING_SCORING.

Definition TaskType_value (t : TaskType) : string :=
  match t with
  | TRANSCRIPTION => "transcription"
  | SENTIMENT_ANALYSIS => "sentiment_analysis"
  | ACTION_EXTRACTION => "action_extraction"
  | SUMMARY_GENERATION => "summary_generation"
  | SPEAKER_DIARIZATION => "speaker_diarization"
  | SCREENSHOT_ANALYSIS => "screenshot_analysis"
  | DECISION_EXTRACTION => "decision_extraction"
  | TOPIC_CLASSIFICATION => "topic_classification"
  | DEADLINE_PREDICTION => "deadline_prediction"
  | MEETING_SCORING => "meeting_scoring"
  end.

Definition TaskType_eqb (a b : TaskType) : bool :=
  String.eqb (TaskType_value a) (TaskType_value b).

(** The text of an [error] field: a literal of the source, or [str(e)]. *)
Inductive ErrorText :=
| Literal (s : string)
| StrOf (e : exn).

(** [@dataclass class AIResponse] ([processing_time], a wall-clock
    reading, and [metadata], never set, are left out). *)
Record AIResponse := mkAIResponse {
  success : bool;
  model : string;
  task_type : string;
  result : option json;
  confidence : Py.float;
  tokens_used : Z;
  error : option ErrorText
}.

(** The routing table: a dict from task type to candidate models. *)
Definition Routing := list (TaskType * list AIModel).

(** [self.model_routing] as [__init__] sets it. *)
Definition model_routing : Routing :=
  [ (TRANSCRIPTION, [GPT4_TURBO]);
    (SENTIMENT_ANALYSIS, [CLAUDE_SONNET; GPT4_TURBO; GEMINI_PRO]);
    (ACTION_EXTRACTION, [CLAUDE_SONNET; GPT4_TURBO]);
    (SUMMARY_GENERATION, [CLAUDE_SONNET; GPT4_TURBO; GEMINI_FLASH]);
    (SPEAKER_DIARIZATION, [GPT4_TURBO; CLAUDE_SONNET]);
    (SCREENSHOT_ANALYSIS, [GPT4_VISION; CLAUDE_SONNET]);
    (DECISION_EXTRACTION, [CLAUDE_SONNET; GPT4_TURBO]);
    (TOPIC_CLASSIFICATION, [GEMINI_FLASH; GPT35_TURBO; CLAUDE_HAIKU]);
    (DEADLINE_PREDICTION, [GPT4_TURBO; CLAUDE_SONNET]);
    (MEETING_SCORING, [CLAUDE_SONNET; GPT4_TURBO]) ].

(** What [process_task] runs against: the three provider SDKs, the prompt
    templates and the token encoder.  An SDK call is answered from the
    model, the prompt and the number of earlier calls to that model, with
    the generated text or with the exception raised. *)
Record Env := mkEnv {
  anthropic_create : AIModel -> string -> nat -> exn + string;
  openai_create : AIModel -> string -> nat -> exn + string;
  gemini_generate : AIModel -> string -> nat -> exn + string;
  _get_prompt : TaskType -> string -> option json -> string;
  token_count : string -> Z
}.

(** The log of SDK calls, earliest first. *)
Definition Log := list AIModel.

(** The number of calls to [m] logged so far. *)
Definition calls_to (m : AIModel) (log : Log) : nat :=
  List.length (List.filter (AIModel_eqb m) log).

Section WithLibrary.
Context {lib : PyLib}.

(** The text [_parse_response] hands to [json.loads]. *)
Definition json_str (response_text : string) : string :=
  if Py.contains response_text "```json" then
    let json_start := Py.find response_text "```json" 0 + 7 in
    let json_end := Py.find response_text "```" json_start in
    Py.strip (Py.slice response_text json_start json_end)
  else if Py.contains response_text "```" then
    let json_start := Py.find response_text "```" 0 + 3 in
    let json_end := Py.find response_text "```" json_start in
    Py.strip (Py.slice response_text json_start json_end)
  else Py.strip response_text.

(** The dict returned when decoding fails. *)
Definition raw_fallback (response_text : string) : json :=
  JObj [(codes "raw_response", JStr (codes response_text));
        (codes "parsed", JBool false)].

(** [AIOrchestrator._parse_response]: what [json.loads] returns; the dict
    above when it raises [JSONDecodeError]; any other exception of
    [json.loads] goes through. *)
Definition _parse_response (response_text : string) (task_type : TaskType)
    : exn + json :=
  match json_loads (json_str response_text) with
  | Loaded v => inr v
  | JSONDecodeError => inr (raw_fallback response_text)
  | Raises e => inl e
  end.

(** [float(v)] *)
Definition py_float (v : json) : exn + Py.float :=
  match v with
  | JFloat x => inr x
  | JInt n =>
      match Py.float_of_int n with
      | Some x => inr x
      | None => inl OverflowError
      end
  | JBool b => inr (Py.Fin (if b then 1 else 0))
  | JStr s => match float_of_str s with Some x => inr x | None => inl ValueError end
  | JNull | JArr _ | JObj _ => inl TypeError
  end.

(** ["confidence" in v] *)
Definition has_confidence (v : json) : exn + bool :=
  match v with
  | JObj d => inr (match get d "confidence" with Some _ => true | None => false end)
  | JStr s => inr (ustring_contains s (codes "confidence"))
  | JArr l => inr (existsb (fun x => match x with
                                     | JStr s => ustring_eqb s (codes "confidence")
                                     | _ => false
                                     end) l)
  | JNull | JBool _ | JInt _ | JFloat _ => inl TypeError
  end.

(** [v["confidence"]], for a [v] that is known to contain it. *)
Definition item_confidence (v : json) : exn + json :=
  match v with
  | JObj d => match get d "confidence" with Some x => inr x | None => inl KeyError end
  | _ => inl TypeError
  end.

(** [AIOrchestrator._calculate_confidence] *)
Definition _calculate_confidence (result : json) (task_type : TaskType)
    : exn + Py.float :=
  match result with
  | JObj d =>
      match get d "confidence" with
      | Some c => py_float c
      | None =>
          let default_confidence :=
            if truthy (default (JBool true) (get d "parsed"))
            then inr (Py.double 0.85)
            else inr (Py.double 0.5) in
          match get d "overall_sentiment" with
          | Some os =>
              match has_confidence os with
              | inl e => inl e
              | inr true =>
                  match item_confidence os with
                  | inl e => inl e
                  | inr c => py_float c
                  end
              | inr false => default_confidence
              end
          | None => default_confidence
          end
      end
  | _ => inl AttributeError
  end.

Section WithEnv.
Variable env : Env.

(** [_call_claude], [_call_gpt], [_call_gemini]: one SDK call, then
    [_parse_response] on the text. *)
Definition _call_claude (m : AIModel) (prompt : string) (task_type : TaskType)
    (log : Log) : (exn + json) * Log :=
  (match anthropic_create env m prompt (calls_to m log) with
   | inr response_text => _parse_response response_text task_type
   | inl e => inl e
   end, (log ++ [m])%list).

Definition _call_gpt (m : AIModel) (prompt : string) (task_type : TaskType)
    (log : Log) : (exn + json) * Log :=
  (match openai_create env m prompt (calls_to m log) with
   | inr response_text => _parse_response response_text task_type
   | inl e => inl e
   end, (log ++ [m])%list).

Definition _call_gemini (m : AIModel) (prompt : string) (task_type : TaskType)
    (log : Log) : (exn + json) * Log :=
  (match gemini_generate env m prompt (calls_to m log) with
   | inr response_text => _parse_response response_text task_type
   | inl e => inl e
   end, (log ++ [m])%list).

(** [model in [...]] *)
Definition member (m : AIModel) (l : list AIModel) : bool :=
  existsb (AIModel_eqb m) l.

(** [AIOrchestrator._call_model]: returns the response or re-raises. *)
Definition _call_model (m : AIModel) (task_type : TaskType) (content : string)
    (context : option json) (log : Log) : (exn + AIResponse) * Log :=
  let prompt := _get_prompt env task_type content context in
  let tokens := token_count env prompt in
  let '(called, log') :=
    if member m [CLAUDE_OPUS; CLAUDE_SONNET; CLAUDE_HAIKU] then
      _call_claude m prompt task_type log
    else if member m [GPT4_TURBO; GPT4_VISION; GPT35_TURBO] then
      _call_gpt m prompt task_type log
    else if member m [GEMINI_PRO; GEMINI_FLASH] then
      _call_gemini m prompt task_type log
    else (inl ValueError, log) in
  match called with
  | inl e => (inl e, log')
  | inr res =>
      match _calculate_confidence res task_type with
      | inl e => (inl e, log')
      | inr c =>
          (inr (mkAIResponse true (AIModel_value m) (TaskType_value task_type)
                             (Some res) c tokens None), log')
      end
  end.

(** The calls handed to [asyncio.gather]: each is started in list
    order; the outcomes are listed by call. *)
Fixpoint start_all (models : list AIModel) (task_type : TaskType)
    (content : string) (context : option json) (log : Log)
    : list (exn + AIResponse) * Log :=
  match models with
  | [] => ([], log)
  | m :: rest =>
      let '(r, log1) := _call_model m task_type content context log in
      let '(rs, log2) := start_all rest task_type content context log1 in
      (r :: rs, log2)
  end.

(** One completion event of [asyncio.gather]: call [i] is done and its
    outcome, a response or the exception raised, goes to slot [i]. *)
Definition complete_call {A : Type} (outcomes : list A) (slots : list (option A))
    (i : nat) : list (option A) :=
  match outcomes !! i with
  | Some o => <[i := Some o]> slots
  | None => slots
  end.

(** [asyncio.gather] with [return_exceptions=True].  [finished] lists
    the calls by index in the order in which they complete; the results
    are returned, in call order, once every slot is filled. *)
Definition gather {A : Type} (outcomes : list A) (finished : list nat)
    : option (list A) :=
  mapM id (fold_left (complete_call outcomes) finished
                     (replicate (List.length outcomes) None)).

(** [[r for r in responses if isinstance(r, AIResponse) and r.success]] *)
Definition valid_responses (responses : list (exn + AIResponse)) : list AIResponse :=
  omap (fun r => match r with
                 | inr a => if success a then Some a else None
                 | inl _ => None
                 end) responses.

(** The response of the final [except Exception as e] of
    [process_task]. *)
Definition orchestration_error (task_type : TaskType) (e : exn) : AIResponse :=
  mkAIResponse false "unknown" (TaskType_value task_type) None (Py.Fin 0) 0
               (Some (StrOf e)).

(** The loop [for model in models] of [process_task]: the first
    successful response, if any. *)
Fixpoint first_success (models : list AIModel) (task_type : TaskType)
    (content : string) (context : option json) (log : Log)
    : option AIResponse * Log :=
  match models with
  | [] => (None, log)
  | m :: rest =>
      match _call_model m task_type content context log with
      | (inr response, log') =>
          if success response then (Some response, log')
          else first_success rest task_type content context log'
      | (inl _, log') => first_success rest task_type content context log'
      end
  end.

(** [AIOrchestrator.process_task].  [routing] is [self.model_routing];
    [finished] is the order in which the gathered calls complete, and
    the result is [None] when they never all do. *)
Definition process_task (routing : Routing) (finished : list nat)
    (task_type : TaskType) (content : string) (context : option json)
    (use_parallel : bool) (log : Log) : option AIResponse * Log :=
  let models := default [CLAUDE_SONNET] (Py.dict_get TaskType_eqb routing task_type) in
  if use_parallel && (1 <? Z.of_nat (List.length models)) then
    let '(outcomes, log1) := start_all (take 2 models) task_type content context log in
    match gather outcomes finished with
    | None => (None, log1)
    | Some responses =>
        match valid_responses responses with
        | r :: rest => (Some (Py.max_by confidence r rest), log1)
        | [] =>
            match models with
            | m0 :: _ =>
                match _call_model m0 task_type content context log1 with
                | (inr response, log2) => (Some response, log2)
                | (inl e, log2) => (Some (orchestration_error task_type e), log2)
                end
            | [] => (Some (orchestration_error task_type IndexError), log1)
            end
        end
    end
  else
    match first_success models task_type content context log with
    | (Some response, log') => (Some response, log')
    | (None, log') =>
        match models with
        | m0 :: _ =>
            (Some (mkAIResponse false (AIModel_value m0) (TaskType_value task_type)
                                None (Py.Fin 0) 0
                                (Some (Literal "All models failed"))), log')
        | [] => (Some (orchestration_error task_type IndexError), log')
        end
    end.

End WithEnv.
End WithLibrary.

End Orchestrator.

(** * Vocabulary of the properties *)

Section OrderVocabulary.
Context {A : Type} (key : A -> Q).

(** Descending key order. *)
Definition desc (a b : A) : Prop := (key b <= key a)%Q.

(** What a stable descending sort of [l] is: the same elements, in
    descending key order, those of equal key in their order in [l]. *)
Definition stable_desc_sort_of (l out : list A) : Prop :=
  Permutation out l
  /\ StronglySorted desc out
  /\ forall k : Q,
       List.filter (fun m => Qeq_bool (key m) k) out
       = List.filter (fun m => Qeq_bool (key m) k) l.

End OrderVocabulary.

Section BestVocabulary.
Context {A : Type} (key : A -> Py.float).

(** [r] is the first element of [l] of greatest key. *)
Definition first_greatest (l : list A) (r : A) : Prop :=
  exists before after,
    l = (before ++ r :: after)%list
    /\ Forall (fun y => Py.float_lt (key y) (key r)) before
    /\ Forall (fun y => Py.float_le (key y) (key r)) after.

(** No element of [l] has [nan] for key. *)
Definition comparable (l : list A) : Prop :=
  Forall (fun y => key y <> Py.NaN) l.

End BestVocabulary.

Section LedgerVocabulary.
Import MultiModel.

(** The ledger after each model of [failed] has been charged an error. *)
Definition charge_errors (self : Ledger) (failed : list ModelConfig) : Ledger :=
  fold_left _track_error failed self.

(** A provider call that raises. *)
Definition fails (sdk : Providers) (prompt : string) (m : ModelConfig) : Prop :=
  exists e, route sdk prompt m = inl e.

End LedgerVocabulary.

Section InterpreterVocabulary.
Import Json Orchestrator.
Context {lib : PyLib}.

(** A call to [m] that raises, whatever was called before. *)
Definition call_fails (env : Env) (task_type : TaskType) (content : string)
    (context : option json) (m : AIModel) : Prop :=
  forall log, exists e, (_call_model env m task_type content context log).1 = inl e.

(** The decoded map carries no confidence under its [overall_sentiment]
    entry: there is no such entry, or its value is a map, a string or a
    list that does not contain ["confidence"]. *)
Definition no_nested_confidence (d : list (ustring * json)) : Prop :=
  get d "overall_sentiment" = None
  \/ exists os, get d "overall_sentiment" = Some os /\ has_confidence os = inr false.

(** A confidence read from the decoded map [res]: [float] of its top-level
    [confidence] entry, or of the one under [overall_sentiment]. *)
Definition explicit_confidence (res : json) (q : Py.float) : Prop :=
  exists d c,
    res = JObj d
    /\ (get d "confidence" = Some c
        \/ (get d "confidence" = None
            /\ exists os, get d "overall_sentiment" = Some os
                          /\ item_confidence os = inr c))
    /\ py_float c = inr q.

(** A response produced by [_call_model]. *)
Definition from_call (env : Env) (task_type : TaskType) (content : string)
    (context : option json) (r : AIResponse) : Prop :=
  exists m log log', _call_model env m task_type content context log = (inr r, log').

End InterpreterVocabulary.

(** * Inputs of the examples *)

(** [dq s] is [s] with every apostrophe replaced by a quotation mark. *)
Fixpoint dq (s : string) : string :=
  match s with
  | EmptyString => EmptyString
  | String c s' =>
      String (if (N_of_ascii c =? 39)%N then ascii_of_N 34 else c) (dq s')
  end.

(** A line feed. *)
Definition nl : string := String (ascii_of_N 10) EmptyString.

Section ExampleInputs.
Import MultiModel.

(** The three candidates of the selection example: speeds 8, 9 and 8. *)
Definition cand_A : ModelConfig := mkModelConfig ANTHROPIC "A" 4096 0.7 0.01 8 5 true.
Definition cand_B : ModelConfig := mkModelConfig OPENAI "B" 4096 0.7 0.01 9 5 true.
Definition cand_C : ModelConfig := mkModelConfig GOOGLE "C" 4096 0.7 0.01 8 5 true.

(** A ledger with three requests and one error. *)
Definition ledger_3_1 : Ledger :=
  mkLedger (<["anthropic/claude-3-opus-20240229" := 2]> (<["openai/gpt-4-turbo-preview" := 1]> ∅))
           (<["anthropic/claude-3-opus-20240229" := 1]> ∅) 0.

(** Providers for the examples: Anthropic times out, the others answer. *)
Definition sdk_anthropic_down : Providers :=
  mkProviders (fun _ _ => inl (mkProviderError "timeout"))
              (fun _ _ => inr "{}")
              (fun _ _ => inr "{}").

(** Every provider raises. *)
Definition sdk_all_down : Providers :=
  mkProviders (fun _ _ => inl (mkProviderError "timeout"))
              (fun _ _ => inl (mkProviderError "rate limited"))
              (fun _ _ => inl (mkProviderError "auth")).

End ExampleInputs.

Section ExampleEnvironments.
Import Json Orchestrator.

(** Both raced providers answer: Anthropic with confidence 0.6, OpenAI with
    confidence 0.9. *)
Definition env_two_answers : Env :=
  mkEnv (fun _ _ _ => inr (dq "{'confidence': 0.6}"))
        (fun _ _ _ => inr (dq "{'confidence': 0.9}"))
        (fun _ _ _ => inr (dq "{}"))
        (fun _ content _ => content) Py.len.

(** Anthropic and OpenAI are down, Gemini answers. *)
Definition env_outage : Env :=
  mkEnv (fun _ _ _ => inl (ProviderError "timeout"))
        (fun _ _ _ => inl (ProviderError "rate limited"))
        (fun _ _ _ => inr (dq "{'summary': 'ok'}"))
        (fun _ content _ => content) Py.len.

(** Every provider is down. *)
Definition env_all_down : Env :=
  mkEnv (fun _ _ _ => inl (ProviderError "timeout"))
        (fun _ _ _ => inl (ProviderError "rate limited"))
        (fun _ _ _ => inl (ProviderError "auth"))
        (fun _ content _ => content) Py.len.

(** A routing table with a single entry. *)
Definition routing_sentiment_only : Routing :=
  [ (SENTIMENT_ANALYSIS, [GPT4_TURBO]) ].

(** A fenced answer with an explicit confidence. *)
Definition text_fenced : string :=
  "Sure, here you go:" ++ nl ++ "```json" ++ nl
  ++ dq "{'confidence': 0.92, 'x': 1}" ++ nl ++ "```".

(** Claude answers with a NaN confidence, OpenAI with confidence 0.9. *)
Definition env_nan_first : Env :=
  mkEnv (fun _ _ _ => inr (dq "{'confidence': NaN}"))
        (fun _ _ _ => inr (dq "{'confidence': 0.9}"))
        (fun _ _ _ => inr (dq "{}"))
        (fun _ content _ => content) Py.len.

(** The same answers, the other way round. *)
Definition env_nan_second : Env :=
  mkEnv (fun _ _ _ => inr (dq "{'confidence': 0.9}"))
        (fun _ _ _ => inr (dq "{'confidence': NaN}"))
        (fun _ _ _ => inr (dq "{}"))
        (fun _ content _ => content) Py.len.

(** Every provider answers with a document that has a false [parsed]
    entry and nothing else. *)
Definition env_parsed_false : Env :=
  mkEnv (fun _ _ _ => inr (dq "{'parsed': false}"))
        (fun _ _ _ => inr (dq "{'parsed': false}"))
        (fun _ _ _ => inr (dq "{'parsed': false}"))
        (fun _ content _ => content) Py.len.

(** [c] written [n] times. *)
Fixpoint brackets (n : nat) (c : string) : string :=
  match n with
  | O => EmptyString
  | S n' => c ++ brackets n' c
  end.

(** Empty arrays nested [n] deep. *)
Definition nested_arrays (n : nat) : string := brackets n "[" ++ brackets n "]".

(** Claude answers with a confidence of 7.5. *)
Definition env_overconfident : Env :=
  mkEnv (fun _ _ _ => inr (dq "{'confidence': 7.5}"))
        (fun _ _ _ => inr (dq "{}"))
        (fun _ _ _ => inr (dq "{}"))
        (fun _ content _ => content) Py.len.

End ExampleEnvironments.

(** * Properties *)

(** ** Sorting and selection *)

Section SortFacts.
Context {A : Type} (key : A -> Q).

Lemma insert_desc_perm (x : A) (l : list A) :
  Permutation (Py.insert_desc key x l) (x :: l).
Proof.
  induction l as [|y l IH]; simpl.
  - reflexivity.
  - destruct (Qle_bool (key y) (key x)).
    + reflexivity.
    + rewrite IH. apply perm_swap.
Qed.

Lemma sort_desc_perm (l : list A) : Permutation (Py.sort_desc key l) l.
Proof.
  induction l as [|x l IH]; simpl.
  - reflexivity.
  - rewrite insert_desc_perm. now constructor.
Qed.

Lemma insert_desc_sorted (x : A) (l : list A) :
  StronglySorted (desc key) l -> StronglySorted (desc key) (Py.insert_desc key x l).
Proof.
  induction 1 as [|y l Hs IH Hy]; simpl.
  - repeat constructor.
  - destruct (Qle_bool (key y) (key x)) eqn:E.
    + apply Qle_bool_iff in E.
      constructor; [now constructor|].
      constructor; [exact E|].
      eapply List.Forall_impl; [|exact Hy].
      intros z Hz. unfold desc in *. now apply Qle_trans with (key y).
    + assert (Hlt : (key x < key y)%Q).
      { apply Qnot_le_lt. intros H. apply Qle_bool_iff in H. congruence. }
      constructor; [exact IH|].
      rewrite (insert_desc_perm x l).
      constructor; [|exact Hy].
      unfold desc. now apply Qlt_le_weak.
Qed.

Lemma sort_desc_sorted (l : list A) : StronglySorted (desc key) (Py.sort_desc key l).
Proof.
  induction l as [|x l IH]; simpl.
  - constructor.
  - now apply insert_desc_sorted.
Qed.

Lemma insert_desc_stable (k : Q) (x : A) (l : list A) :
  List.filter (fun m => Qeq_bool (key m) k) (Py.insert_desc key x l)
  = List.filter (fun m => Qeq_bool (key m) k) (x :: l).
Proof.
  induction l as [|y l IH]; [reflexivity|].
  cbn [Py.insert_desc].
  destruct (Qle_bool (key y) (key x)) eqn:E; [reflexivity|].
  cbn [List.filter] in *. rewrite IH.
  destruct (Qeq_bool (key x) k) eqn:Ex; [|reflexivity].
  destruct (Qeq_bool (key y) k) eqn:Ey; [|reflexivity].
  exfalso.
  apply Qeq_bool_iff in Ex, Ey.
  assert (H : Qle_bool (key y) (key x) = true).
  { apply Qle_bool_iff. rewrite Ex, Ey. apply Qle_refl. }
  congruence.
Qed.

Lemma sort_desc_stable (k : Q) (l : list A) :
  List.filter (fun m => Qeq_bool (key m) k) (Py.sort_desc key l)
  = List.filter (fun m => Qeq_bool (key m) k) l.
Proof.
  induction l as [|x l IH]; [reflexivity|].
  cbn [Py.sort_desc]. rewrite insert_desc_stable.
  cbn [List.filter]. now rewrite IH.
Qed.

Lemma sort_desc_spec (l : list A) : stable_desc_sort_of key l (Py.sort_desc key l).
Proof.
  split; [apply sort_desc_perm|].
  split; [apply sort_desc_sorted|].
  intros k. apply sort_desc_stable.
Qed.
End SortFacts.

Lemma stable_desc_sort_of_ext {A : Type} (key key' : A -> Q) (l out : list A) :
  (forall m, key m = key' m) ->
  stable_desc_sort_of key l out -> stable_desc_sort_of key' l out.
Proof.
  intros Hk (Hp & Hs & Hf). split; [exact Hp|]. split.
  - clear Hp Hf. induction Hs as [|a out Hs IH Ha]; constructor; [exact IH|].
    eapply List.Forall_impl; [|exact Ha].
    intros b Hb. unfold desc in *. now rewrite <- !Hk.
  - intros k.
    rewrite (List.filter_ext _ (fun m => Qeq_bool (key m) k))
      by (intros m; now rewrite Hk).
    rewrite Hf. apply List.filter_ext. intros m. now rewrite Hk.
Qed.

Section SelectionProps.
Import MultiModel.

Lemma within_ceiling_iff (max_cost : option Q) (m : ModelConfig) :
  is_available m && match max_cost with
                    | None => true
                    | Some c => Qle_bool (cost_per_1k_tokens m) c
                    end = true
  <-> is_available m = true
      /\ forall c, max_cost = Some c -> (cost_per_1k_tokens m <= c)%Q.
Proof.
  rewrite andb_true_iff.
  destruct max_cost as [c|].
  - rewrite Qle_bool_iff. split.
    + intros [Ha Hc]. split; [exact Ha|]. intros c' [= <-]. exact Hc.
    + intros [Ha Hc]. split; [exact Ha|]. now apply Hc.
  - split.
    + intros [Ha _]. split; [exact Ha|]. intros c [=].
    + intros [Ha _]. now split.
Qed.

(** C5. The selector returns exactly the candidates that are available
    and, when a ceiling is given, cost at most the ceiling; they come
    sorted in descending order of [speed_score] under [prefer_speed], of
    [quality_score] under [prefer_quality], of the mean of the two scores
    otherwise, candidates of equal key in their registry order.  With
    speeds A=8, B=9, C=8 in the order [A; B; C] the result under
    [prefer_speed] is [B; A; C]. *)
Theorem select_models_filters_and_sorts
    (registry : Registry) (model_type : ModelType)
    (prefer_speed prefer_quality : bool) (max_cost : option Q) :
  let candidates := default [] (Py.dict_get ModelType_eqb registry model_type) in
  let kept :=
    List.filter (fun m => is_available m
                          && match max_cost with
                             | Some ceiling => Qle_bool (cost_per_1k_tokens m) ceiling
                             | None => true
                             end) candidates in
  let key := fun m =>
    if prefer_speed then inject_Z (speed_score m)
    else if prefer_quality then inject_Z (quality_score m)
    else (inject_Z (speed_score m + quality_score m) / 2)%Q in
  let out := _select_models registry model_type prefer_speed prefer_quality max_cost in
  stable_desc_sort_of key kept out
  /\ (forall m, In m out <->
                In m candidates /\ is_available m = true
                /\ forall ceiling, max_cost = Some ceiling ->
                                   (cost_per_1k_tokens m <= ceiling)%Q)
  /\ _select_models [(ANALYSIS, [cand_A; cand_B; cand_C])] ANALYSIS true false None
     = [cand_B; cand_A; cand_C].
Proof.
  intros candidates kept key out.
  assert (Hsort : stable_desc_sort_of key kept out).
  { subst out key. unfold _select_models. fold candidates.
    set (available := List.filter _ candidates).
    change available with kept. clearbody kept. clear available.
    destruct kept as [|m0 kept'] eqn:Ek.
    - destruct prefer_speed, prefer_quality; repeat split; constructor.
    - rewrite <- Ek. clear Ek.
      destruct prefer_speed; [apply sort_desc_spec|].
      destruct prefer_quality; [apply sort_desc_spec|].
      eapply stable_desc_sort_of_ext; [|apply sort_desc_spec].
      intros m. cbv beta. now rewrite Z.add_comm. }
  split; [exact Hsort|]. split; [|reflexivity].
  intros m. destruct Hsort as (Hp & _ & _).
  split.
  - intros Hin. apply (Permutation_in _ Hp) in Hin.
    apply List.filter_In in Hin. destruct Hin as [Hin Hsel].
    split; [exact Hin|]. now apply (within_ceiling_iff max_cost m).
  - intros (Hin & Hsel). apply (Permutation_in _ (Permutation_sym Hp)).
    apply List.filter_In. split; [exact Hin|]. now apply (within_ceiling_iff max_cost m).
Qed.
End SelectionProps.

(** ** The usage ledger *)

Section LedgerProps.
Import MultiModel.

Lemma sum_values_bump (d : gmap string Z) (key : string) :
  sum_values (<[key := default 0 (d !! key) + 1]> d) = sum_values d + 1.
Proof.
  unfold sum_values.
  assert (Hcomm : forall z1 z2 y : Z, z1 + (z2 + y) = z2 + (z1 + y)) by (intros; lia).
  destruct (d !! key) as [x|] eqn:E; simpl.
  - rewrite <- insert_delete_eq.
    rewrite map_fold_insert_L; [|intros; apply Hcomm|apply lookup_delete_eq].
    rewrite (map_fold_delete_L _ 0 key x d); [lia|intros; apply Hcomm|exact E].
  - rewrite map_fold_insert_L; [lia|intros; apply Hcomm|exact E].
Qed.

Lemma charge_errors_requests (failed : list ModelConfig) (self : Ledger) :
  request_count (charge_errors self failed) = request_count self.
Proof.
  revert self. induction failed as [|m failed IH]; intros self; [reflexivity|].
  unfold charge_errors in *. simpl. now rewrite IH.
Qed.

Lemma charge_errors_cost (failed : list ModelConfig) (self : Ledger) :
  total_cost (charge_errors self failed) = total_cost self.
Proof.
  revert self. induction failed as [|m failed IH]; intros self; [reflexivity|].
  unfold charge_errors in *. simpl. now rewrite IH.
Qed.

Lemma charge_errors_total (failed : list ModelConfig) (self : Ledger) :
  sum_values (error_count (charge_errors self failed))
  = sum_values (error_count self) + Z.of_nat (List.length failed).
Proof.
  revert self. induction failed as [|m failed IH]; intros self.
  - simpl. lia.
  - unfold charge_errors in *. cbn [fold_left List.length]. rewrite IH.
    unfold _track_error at 1. cbn [error_count]. rewrite sum_values_bump. lia.
Qed.


(** The loop of [generate] when every candidate raises. *)
Lemma try_models_all_fail sdk prompt model_type models last_error st :
  Forall (fails sdk prompt) models ->
  exists st',
    try_models sdk prompt model_type models last_error st
    = (inl (AllModelsFailed model_type
              (fold_left (fun acc m => match route sdk prompt m with
                                       | inl e => Some e
                                       | inr _ => acc
                                       end) models last_error)), st')
    /\ ledger st' = charge_errors (ledger st) models
    /\ calls st' = (calls st ++ map ledger_key models)%list.
Proof.
  intros Hall. revert last_error st.
  induction Hall as [|m models [e He] Hall IH]; intros last_error st; simpl.
  - exists st. rewrite app_nil_r. now repeat split.
  - rewrite He.
    destruct (IH (Some e) (mkState (_track_error (ledger st) m)
                                   (calls st ++ [ledger_key m])%list))
      as (st' & Hrun & Hl & Hc).
    exists st'. split; [exact Hrun|]. split; [exact Hl|].
    rewrite Hc. simpl. now rewrite <- app_assoc.
Qed.

(** C9. The success rate reported by [get_stats] is the total of the
    per-model request counters divided by the total of the request and the
    error counters, and it is 1 when both totals are zero. *)
Theorem stats_success_rate (self : Ledger) :
  let requests := total_requests (get_stats self) in
  let errors := total_errors (get_stats self) in
  requests = sum_values (request_count self)
  /\ errors = sum_values (error_count self)
  /\ (requests + errors <> 0 ->
      success_rate (get_stats self)
      = (inject_Z requests / inject_Z (requests + errors))%Q)
  /\ (requests = 0 -> errors = 0 -> success_rate (get_stats self) = 1%Q).
Proof.
  intros requests errors. subst requests errors. cbn [get_stats total_requests total_errors success_rate].
  split; [reflexivity|]. split; [reflexivity|].
  unfold _calculate_success_rate. split.
  - intros Hne. destruct (Z.eqb_spec (sum_values (request_count self)
                                      + sum_values (error_count self)) 0); [contradiction|reflexivity].
  - intros -> ->. reflexivity.
Qed.

(** The success rate on a ledger with traffic, and on the empty ledger. *)
Lemma stats_success_rate_witness :
  success_rate (get_stats ledger_3_1) = (inject_Z 3 / inject_Z (3 + 1))%Q
  /\ success_rate (get_stats init) = 1%Q.
Proof.
  split.
  - apply (stats_success_rate ledger_3_1). vm_compute. discriminate.
  - apply (stats_success_rate init); reflexivity.
Defined.

End LedgerProps.

(** ** Sequential failover with the ledger: [generate] *)

Section GenerateProps.
Import MultiModel.



End GenerateProps.

(** ** The join and the choice of the parallel protocol *)

Section GatherProps.
Import Orchestrator.
Context {A : Type}.

Lemma complete_call_length (outcomes : list A) (slots : list (option A)) (i : nat) :
  List.length (complete_call outcomes slots i) = List.length slots.
Proof.
  unfold complete_call. destruct (outcomes !! i); [apply length_insert|reflexivity].
Qed.

Lemma fill_length (outcomes : list A) (finished : list nat) (slots : list (option A)) :
  List.length (fold_left (complete_call outcomes) finished slots) = List.length slots.
Proof.
  revert slots. induction finished as [|j fs IH]; intros slots; simpl; [reflexivity|].
  rewrite IH. apply complete_call_length.
Qed.

Lemma fill_lookup (outcomes : list A) (finished : list nat) (slots : list (option A))
    (i : nat) (o : A) :
  List.length slots = List.length outcomes ->
  outcomes !! i = Some o ->
  fold_left (complete_call outcomes) finished slots !! i
  = if decide (i ∈ finished) then Some (Some o) else slots !! i.
Proof.
  intros Hlen Ho. revert slots Hlen.
  induction finished as [|j fs IH]; intros slots Hlen; simpl.
  - destruct (decide (i ∈ [])) as [H|_]; [|reflexivity]. now apply elem_of_nil in H.
  - rewrite IH by (now rewrite complete_call_length).
    destruct (decide (i ∈ fs)) as [Hin|Hnin].
    + rewrite decide_True; [reflexivity|now right].
    + unfold complete_call. destruct (decide (i = j)) as [->|Hne].
      * rewrite Ho. rewrite decide_True by now left.
        apply list_lookup_insert_eq. rewrite Hlen.
        apply lookup_lt_is_Some. now exists o.
      * rewrite decide_False.
        2:{ intros [->|H]%elem_of_cons; [now apply Hne|now apply Hnin]. }
        destruct (outcomes !! j); [|reflexivity].
        apply list_lookup_insert_ne. congruence.
Qed.

(** Once every call has completed, in whatever order, [gather] returns the
    outcomes in call order. *)
Lemma gather_all_done (outcomes : list A) (finished : list nat) :
  (forall i, (i < List.length outcomes)%nat -> i ∈ finished) ->
  gather outcomes finished = Some outcomes.
Proof.
  intros Hall. unfold gather. apply mapM_Some, Forall2_lookup. intros i.
  destruct (outcomes !! i) as [o|] eqn:Ho.
  - rewrite (fill_lookup _ _ _ i o); [|apply length_replicate|exact Ho].
    rewrite decide_True; [now constructor|].
    apply Hall, lookup_lt_is_Some. now exists o.
  - assert (Hn : fold_left (complete_call outcomes) finished
                             (replicate (List.length outcomes) None) !! i = None).
    { apply lookup_ge_None. rewrite fill_length, length_replicate.
      now apply lookup_ge_None. }
    rewrite Hn. constructor.
Qed.

(** [gather] returns nothing while a call is still pending. *)
Lemma gather_waits (outcomes results : list A) (finished : list nat) :
  gather outcomes finished = Some results ->
  results = outcomes /\ forall i, (i < List.length outcomes)%nat -> i ∈ finished.
Proof.
  unfold gather. intros H%mapM_Some.
  assert (Hdone : forall i, (i < List.length outcomes)%nat -> i ∈ finished).
  { intros i Hi. apply lookup_lt_is_Some in Hi. destruct Hi as [o Ho].
    destruct (decide (i ∈ finished)) as [Hin|Hnin]; [exact Hin|exfalso].
    rewrite Forall2_lookup in H. specialize (H i).
    rewrite (fill_lookup _ _ _ i o) in H; [|apply length_replicate|exact Ho].
    rewrite decide_False in H by exact Hnin.
    assert (Hr : replicate (List.length outcomes) (@None A) !! i = Some None).
    { apply lookup_replicate. split; [reflexivity|].
      apply lookup_lt_is_Some. now exists o. }
    rewrite Hr in H. inversion H as [x y Hxy|]. discriminate Hxy. }
  split; [|exact Hdone].
  apply gather_all_done in Hdone. unfold gather in Hdone.
  apply mapM_Some in Hdone.
  apply list_eq. intros i.
  rewrite Forall2_lookup in H, Hdone. specialize (H i). specialize (Hdone i).
  destruct H as [x y Hx|]; inversion Hdone as [x' y' Hx'|]; subst; try congruence.
Qed.

End GatherProps.

Section FloatOrder.

Lemma float_ltb_Fin (x y : Q) : Py.float_ltb (Py.Fin x) (Py.Fin y) = true <-> (x < y)%Q.
Proof.
  cbn. rewrite negb_true_iff. split.
  - intros H. apply Qnot_le_lt. intros Hle. apply Qle_bool_iff in Hle. congruence.
  - intros H. destruct (Qle_bool y x) eqn:E; [|reflexivity].
    apply Qle_bool_iff in E. exfalso. exact (Qlt_not_le _ _ H E).
Qed.

Lemma float_leb_Fin (x y : Q) : Py.float_leb (Py.Fin x) (Py.Fin y) = true <-> (x <= y)%Q.
Proof. cbn. apply Qle_bool_iff. Qed.

Lemma float_gtb_true (a b : Py.float) : Py.float_gtb a b = true <-> Py.float_lt b a.
Proof. reflexivity. Qed.

(** On floats other than [nan], [a > b] fails exactly when [a <= b]. *)
Lemma float_gtb_false (a b : Py.float) :
  a <> Py.NaN -> b <> Py.NaN -> Py.float_gtb a b = false -> Py.float_le a b.
Proof.
  unfold Py.float_gtb, Py.float_le.
  destruct a as [x| | |], b as [y| | |]; cbn; try congruence; try reflexivity.
  rewrite negb_false_iff. intros _ _ H. exact H.
Qed.

Lemma float_lt_trans (a b c : Py.float) :
  Py.float_lt a b -> Py.float_lt b c -> Py.float_lt a c.
Proof.
  unfold Py.float_lt.
  destruct a as [x| | |], b as [y| | |], c as [z| | |];
    try (cbn; congruence); try reflexivity.
  rewrite !float_ltb_Fin. apply Qlt_trans.
Qed.

Lemma float_le_lt_trans (a b c : Py.float) :
  Py.float_le a b -> Py.float_lt b c -> Py.float_lt a c.
Proof.
  unfold Py.float_lt, Py.float_le.
  destruct a as [x| | |], b as [y| | |], c as [z| | |];
    try (cbn; congruence); try reflexivity.
  rewrite float_leb_Fin, !float_ltb_Fin. apply Qle_lt_trans.
Qed.

Lemma float_lt_le (a b : Py.float) : Py.float_lt a b -> Py.float_le a b.
Proof.
  unfold Py.float_lt, Py.float_le.
  destruct a as [x| | |], b as [y| | |]; try (cbn; congruence); try reflexivity.
  rewrite float_leb_Fin, float_ltb_Fin. apply Qlt_le_weak.
Qed.

Lemma float_lt_not_le (a b : Py.float) : Py.float_lt a b -> ~ Py.float_le b a.
Proof.
  unfold Py.float_lt, Py.float_le.
  destruct a as [x| | |], b as [y| | |]; try (cbn; congruence).
  rewrite float_leb_Fin, float_ltb_Fin. apply Qlt_not_le.
Qed.

Lemma float_le_refl (a : Py.float) : a <> Py.NaN -> Py.float_le a a.
Proof.
  unfold Py.float_le. destruct a as [x| | |]; try reflexivity; [|congruence].
  intros _. apply float_leb_Fin. apply Qle_refl.
Qed.

End FloatOrder.

Section MaxProps.
Context {A : Type} (key : A -> Py.float).

(** The invariant of the fold that computes [max], for keys other than
    [nan]: the running maximum is the first of greatest key among the
    elements read. *)
Lemma max_fold_spec (l before after : list A) (best : A) :
  comparable key (best :: l) ->
  Forall (fun y => Py.float_lt (key y) (key best)) before ->
  Forall (fun y => Py.float_le (key y) (key best)) after ->
  first_greatest key (before ++ best :: after ++ l)%list
                 (fold_left (Py.max_step key) l best).
Proof.
  revert before after best.
  induction l as [|y l IH]; intros before after best Hc Hb Ha; simpl.
  - exists before, after. now rewrite app_nil_r.
  - pose proof (Forall_inv Hc) as Hbest.
    pose proof (Forall_inv (Forall_inv_tail Hc)) as Hy.
    pose proof (Forall_inv_tail (Forall_inv_tail Hc)) as Hl.
    unfold Py.max_step at 2. destruct (Py.float_gtb (key y) (key best)) eqn:E.
    + apply float_gtb_true in E.
      replace (before ++ best :: after ++ y :: l)%list
        with ((before ++ best :: after) ++ y :: [] ++ l)%list
        by (now rewrite <- app_assoc).
      apply IH; [now constructor| |constructor].
      apply Forall_app. split; [|constructor; [exact E|]].
      * eapply List.Forall_impl; [|exact Hb].
        intros z Hz. now apply float_lt_trans with (key best).
      * eapply List.Forall_impl; [|exact Ha].
        intros z Hz. now apply float_le_lt_trans with (key best).
    + apply float_gtb_false in E; [|exact Hy|exact Hbest].
      replace (before ++ best :: after ++ y :: l)%list
        with (before ++ best :: (after ++ [y]) ++ l)%list
        by (now rewrite <- app_assoc).
      apply IH; [now constructor|exact Hb|].
      apply Forall_app. split; [exact Ha|]. now repeat constructor.
Qed.

Lemma max_by_first_greatest (x : A) (l : list A) :
  comparable key (x :: l) ->
  first_greatest key (x :: l) (Py.max_by key x l).
Proof. intros Hc. apply (max_fold_spec l [] [] x Hc); constructor. Qed.

(** Whatever the keys, [max] returns an element of the list. *)
Lemma max_by_In (x : A) (l : list A) : In (Py.max_by key x l) (x :: l).
Proof.
  unfold Py.max_by. revert x. induction l as [|y l IH]; intros x; [now left|].
  cbn [fold_left]. specialize (IH (Py.max_step key x y)).
  destruct IH as [H|H]; [|right; now right].
  rewrite <- H. unfold Py.max_step. destruct (Py.float_gtb (key y) (key x));
    [right; now left|now left].
Qed.

(** The first element of greatest key is determined by the list: the choice
    depends on nothing but the ranked outcomes. *)
Lemma first_greatest_unique (l : list A) (r r' : A) :
  first_greatest key l r -> first_greatest key l r' -> r = r'.
Proof.
  intros (b & a & -> & Hb & Ha) (b' & a' & Heq & Hb' & Ha').
  revert b' Heq Hb'. induction b as [|x b IH]; intros b' Heq Hb'.
  - destruct b' as [|x' b']; simpl in Heq.
    + now injection Heq.
    + injection Heq as -> ->. exfalso.
      apply Forall_inv in Hb'.
      rewrite List.Forall_forall in Ha.
      assert (Hle : Py.float_le (key r') (key x')).
      { apply Ha. apply in_or_app. right. now left. }
      exact (float_lt_not_le _ _ Hb' Hle).
  - destruct b' as [|x' b']; simpl in Heq.
    + injection Heq as -> Hrest. exfalso.
      apply Forall_inv in Hb.
      rewrite List.Forall_forall in Ha'.
      assert (Hle : Py.float_le (key r) (key r')).
      { apply Ha'. rewrite <- Hrest. apply in_or_app. right. now left. }
      exact (float_lt_not_le _ _ Hb Hle).
    + injection Heq as -> Hrest.
      apply (IH (Forall_inv_tail Hb) b' Hrest (Forall_inv_tail Hb')).
Qed.

End MaxProps.

(** ** The parallel protocol of [process_task] *)

Section ParallelProps.
Import Json Orchestrator.
Context {lib : PyLib}.

Lemma call_model_log (env : Env) (m : AIModel) (task_type : TaskType)
    (content : string) (context : option json) (log : Log) :
  (_call_model env m task_type content context log).2 = (log ++ [m])%list.
Proof.
  unfold _call_model.
  destruct m; cbn -[_calculate_confidence _parse_response].
  all: match goal with
       | |- context [match ?x with inl _ => _ | inr _ => _ end] => destruct x
       end; cbn -[_calculate_confidence]; try reflexivity.
  all: match goal with
       | |- context [_calculate_confidence ?a ?b] => destruct (_calculate_confidence a b)
       end; reflexivity.
Qed.

Lemma start_all_log (env : Env) (models : list AIModel) (task_type : TaskType)
    (content : string) (context : option json) (log : Log) :
  (start_all env models task_type content context log).2 = (log ++ models)%list
  /\ List.length (start_all env models task_type content context log).1
     = List.length models.
Proof.
  revert log. induction models as [|m models IH]; intros log; simpl.
  - now rewrite app_nil_r.
  - pose proof (call_model_log env m task_type content context log) as Hm.
    destruct (_call_model env m task_type content context log) as [r log1].
    simpl in Hm. subst log1.
    specialize (IH (log ++ [m])%list).
    destruct (start_all env models task_type content context (log ++ [m])%list)
      as [rs log2].
    simpl in *. destruct IH as [-> ->]. now rewrite <- app_assoc.
Qed.

(** With [use_parallel] set and a task routed to more than one model,
    [process_task] returns only once both raced calls have completed, and
    the completion order of the two calls does not change the result.
    When at least one of them succeeded and no successful outcome has a
    [nan] confidence, it returns the successful outcome of greatest
    confidence, the earlier-ranked one when confidences are equal. *)
Theorem parallel_consensus_best_of_comparable
    (env : Env) (routing : Routing) (task_type : TaskType) (content : string)
    (context : option json) (log : Log) (models : list AIModel) :
  Py.dict_get TaskType_eqb routing task_type = Some models ->
  (1 < List.length models)%nat ->
  let raced := take 2 models in
  let valid := valid_responses (start_all env raced task_type content context log).1 in
  valid <> [] ->
  comparable confidence valid ->
  (forall finished r log',
      process_task env routing finished task_type content context true log
      = (Some r, log') ->
      0%nat ∈ finished /\ 1%nat ∈ finished)
  /\ (forall finished,
         0%nat ∈ finished -> 1%nat ∈ finished ->
         exists r,
           process_task env routing finished task_type content context true log
           = (Some r, (log ++ raced)%list)
           /\ first_greatest confidence valid r)
  /\ (forall finished finished',
         0%nat ∈ finished -> 1%nat ∈ finished ->
         0%nat ∈ finished' -> 1%nat ∈ finished' ->
         process_task env routing finished task_type content context true log
         = process_task env routing finished' task_type content context true log).
Proof.
  intros Hroute Hlen raced valid Hvalid Hcomp.
  assert (Hgt : (1 <? Z.of_nat (List.length models)) = true) by (apply Z.ltb_lt; lia).
  assert (Hraced : List.length raced = 2%nat).
  { subst raced. rewrite length_take. lia. }
  unfold process_task. rewrite Hroute. cbn [from_option id andb]. rewrite Hgt.
  fold raced.
  pose proof (start_all_log env raced task_type content context log) as [Hlog Hn].
  destruct (start_all env raced task_type content context log) as [outcomes log1] eqn:Es.
  cbn [fst snd] in *. subst log1. rewrite Hraced in Hn.
  assert (Hdone : forall finished, 0%nat ∈ finished -> 1%nat ∈ finished ->
                    gather outcomes finished = Some outcomes).
  { intros finished H0 H1. apply gather_all_done. rewrite Hn.
    intros i Hi. destruct i as [|[|i]]; [exact H0|exact H1|lia]. }
  split; [|split].
  - intros finished r log' H.
    destruct (gather outcomes finished) as [responses|] eqn:Eg; [|discriminate].
    apply gather_waits in Eg. destruct Eg as [_ Hall]. rewrite Hn in Hall.
    split; apply Hall; lia.
  - intros finished H0 H1. rewrite (Hdone finished H0 H1).
    fold valid. destruct valid as [|r rest] eqn:Ev; [contradiction|].
    eexists. split; [reflexivity|]. now apply max_by_first_greatest.
  - intros finished finished' H0 H1 H0' H1'.
    now rewrite (Hdone finished H0 H1), (Hdone finished' H0' H1').
Qed.

(** The fallback of the parallel path: when neither raced call succeeded,
    the only further call is one to the first model; no model beyond the
    second is ever called on this path. *)
Lemma parallel_fallback_calls
    (env : Env) (routing : Routing) (finished : list nat) (task_type : TaskType)
    (content : string) (context : option json) (log log' : Log)
    (m0 : AIModel) (rest : list AIModel) (r : AIResponse) :
  Py.dict_get TaskType_eqb routing task_type = Some (m0 :: rest) ->
  rest <> [] ->
  valid_responses (start_all env (take 2 (m0 :: rest)) task_type content context log).1
  = [] ->
  process_task env routing finished task_type content context true log = (Some r, log') ->
  log' = (log ++ take 2 (m0 :: rest) ++ [m0])%list.
Proof.
  intros Hroute Hrest Hvalid. unfold process_task. rewrite Hroute.
  cbn [from_option id andb].
  assert (Hgt : (1 <? Z.of_nat (List.length (m0 :: rest))) = true).
  { apply Z.ltb_lt. destruct rest; [contradiction|simpl; lia]. }
  rewrite Hgt.
  pose proof (start_all_log env (take 2 (m0 :: rest)) task_type content context log)
    as [Hlog _].
  destruct (start_all env (take 2 (m0 :: rest)) task_type content context log)
    as [outcomes log1].
  cbn [fst snd] in *. subst log1.
  destruct (gather outcomes finished) as [responses|] eqn:Eg; [|discriminate].
  apply gather_waits in Eg. destruct Eg as [-> _]. rewrite Hvalid.
  pose proof (call_model_log env m0 task_type content context
                (log ++ take 2 (m0 :: rest))%list) as Hretry.
  destruct (_call_model env m0 task_type content context (log ++ take 2 (m0 :: rest))%list)
    as [[e|r1] log2]; cbn [snd] in Hretry; subst log2.
  - intros [= _ <-]. now rewrite <- app_assoc.
  - intros [= _ <-]. now rewrite <- app_assoc.
Qed.

End ParallelProps.

Section ParallelExamples.
Import Json Orchestrator.

(** Two raced answers of confidence 0.6 and 0.9, the second call completing
    first. *)
Lemma parallel_consensus_best_of_comparable_witness :
  exists r,
    process_task (lib := CPython) env_two_answers model_routing [1%nat; 0%nat]
                 ACTION_EXTRACTION "notes" None true []
    = (Some r, [CLAUDE_SONNET; GPT4_TURBO])
    /\ first_greatest confidence
         (valid_responses
            (start_all (lib := CPython) env_two_answers [CLAUDE_SONNET; GPT4_TURBO]
                       ACTION_EXTRACTION "notes" None []).1) r.
Proof.
  assert (H0 : 0%nat ∈ [1%nat; 0%nat]) by (right; left).
  assert (H1 : 1%nat ∈ [1%nat; 0%nat]) by left.
  refine (proj1 (proj2 (parallel_consensus_best_of_comparable (lib := CPython)
            env_two_answers model_routing ACTION_EXTRACTION "notes" None []
            [CLAUDE_SONNET; GPT4_TURBO] _ _ _ _)) [1%nat; 0%nat] H0 H1).
  - reflexivity.
  - simpl. lia.
  - vm_compute. discriminate.
  - vm_compute. repeat constructor; discriminate.
Defined.

(** C1 (the code departs from it). Claude Sonnet and GPT-4 Turbo are raced
    and both succeed: the first answer carries the confidence NaN, which
    [json.loads] decodes, the second the confidence 0.9.  [max] replaces
    its running maximum only by a strictly greater one, and nothing is
    greater than NaN: the response returned is Claude's, of confidence NaN,
    and not the one of highest confidence.  With the same two answers the
    other way round, the response of confidence 0.9 is returned. *)
Theorem parallel_consensus_keeps_nan_first :
  exists r_claude r_gpt,
    valid_responses
      (start_all (lib := CPython) env_nan_first [CLAUDE_SONNET; GPT4_TURBO]
                 SENTIMENT_ANALYSIS "notes" None []).1
    = [r_claude; r_gpt]
    /\ model r_claude = "claude-3-5-sonnet-20241022"
    /\ confidence r_claude = Py.NaN
    /\ model r_gpt = "gpt-4-turbo-preview"
    /\ confidence r_gpt = Py.double 0.9
    /\ process_task (lib := CPython) env_nan_first model_routing [0%nat; 1%nat]
                    SENTIMENT_ANALYSIS "notes" None true []
       = (Some r_claude, [CLAUDE_SONNET; GPT4_TURBO])
    /\ ~ first_greatest confidence [r_claude; r_gpt] r_claude
    /\ (exists r,
          process_task (lib := CPython) env_nan_second model_routing [0%nat; 1%nat]
                       SENTIMENT_ANALYSIS "notes" None true []
          = (Some r, [CLAUDE_SONNET; GPT4_TURBO])
          /\ model r = "claude-3-5-sonnet-20241022"
          /\ confidence r = Py.double 0.9).
Proof.
  eexists. eexists. split; [vm_compute; reflexivity|].
  split; [reflexivity|]. split; [reflexivity|]. split; [reflexivity|].
  split; [reflexivity|]. split; [vm_compute; reflexivity|]. split.
  - intros (before & after & Hsplit & _ & Hafter).
    destruct before as [|x before].
    + injection Hsplit as <-. apply Forall_inv in Hafter. discriminate Hafter.
    + injection Hsplit as _ Hrest.
      destruct before as [|y before]; [|destruct before; discriminate Hrest].
      injection Hrest as Heq _. discriminate Heq.
  - eexists. split; [vm_compute; reflexivity|]. split; reflexivity.
Qed.

(** C2 (the code departs from it). Sentiment analysis is routed to Claude
    Sonnet, GPT-4 Turbo and Gemini Pro.  When the two raced calls fail, the
    parallel path calls the first model once more and gives up: Gemini Pro
    is never called although it would have answered, and the request fails;
    the sequential path, on the same providers, reaches Gemini Pro and
    succeeds. *)
Theorem parallel_fallback_stops_at_first_model :
  Py.dict_get TaskType_eqb model_routing SENTIMENT_ANALYSIS
  = Some [CLAUDE_SONNET; GPT4_TURBO; GEMINI_PRO]
  /\ process_task (lib := CPython) env_outage model_routing [0%nat; 1%nat]
                  SENTIMENT_ANALYSIS "notes" None true []
     = (Some (mkAIResponse false "unknown" "sentiment_analysis" None (Py.Fin 0) 0
                           (Some (StrOf (ProviderError "timeout")))),
        [CLAUDE_SONNET; GPT4_TURBO; CLAUDE_SONNET])
  /\ (exists r,
        _call_model (lib := CPython) env_outage GEMINI_PRO SENTIMENT_ANALYSIS
                    "notes" None [CLAUDE_SONNET; GPT4_TURBO]
        = (inr r, [CLAUDE_SONNET; GPT4_TURBO; GEMINI_PRO])
        /\ success r = true
        /\ process_task (lib := CPython) env_outage model_routing []
                        SENTIMENT_ANALYSIS "notes" None false []
           = (Some r, [CLAUDE_SONNET; GPT4_TURBO; GEMINI_PRO])).
Proof.
  split; [reflexivity|]. split; [reflexivity|].
  eexists. split; [reflexivity|]. split; reflexivity.
Qed.

End ParallelExamples.

(** ** Exhausted failover and unknown categories *)

Section SequentialProps.
Import Json Orchestrator.
Context {lib : PyLib}.

Lemma first_success_all_fail (env : Env) (models : list AIModel)
    (task_type : TaskType) (content : string) (context : option json) (log : Log) :
  Forall (call_fails env task_type content context) models ->
  first_success env models task_type content context log = (None, (log ++ models)%list).
Proof.
  intros Hall. revert log.
  induction Hall as [|m models Hm Hall IH]; intros log; simpl.
  - now rewrite app_nil_r.
  - destruct (Hm log) as [e He].
    pose proof (call_model_log env m task_type content context log) as Hl.
    destruct (_call_model env m task_type content context log) as [r log1].
    simpl in He, Hl. subst r log1. rewrite IH. now rewrite <- app_assoc.
Qed.

(** The sequential path of [process_task] when every candidate raises: the
    call returns, with a failed response that names the first candidate and
    carries the fixed text. *)
Lemma process_task_all_fail (env : Env) (routing : Routing) (finished : list nat)
    (task_type : TaskType) (content : string) (context : option json) (log : Log)
    (m0 : AIModel) (rest : list AIModel) :
  Py.dict_get TaskType_eqb routing task_type = Some (m0 :: rest) ->
  Forall (call_fails env task_type content context) (m0 :: rest) ->
  process_task env routing finished task_type content context false log
  = (Some (mkAIResponse false (AIModel_value m0) (TaskType_value task_type) None (Py.Fin 0) 0
                        (Some (Literal "All models failed"))),
     (log ++ m0 :: rest)%list).
Proof.
  intros Hroute Hall. unfold process_task. rewrite Hroute.
  cbn [from_option id andb]. now rewrite first_success_all_fail.
Qed.

End SequentialProps.

Section ExhaustionProps.
Import MultiModel.

(** C3, as the code has it. When every selected candidate raises,
    [generate] raises the all-models-failed error, which carries the task
    category and the error of the last candidate tried; the candidates were
    tried once each in selection order, and the total of the error counters
    has grown by exactly their number, the request counters and the running
    cost being unchanged.  [process_task] keeps no ledger and does not
    raise: when every candidate raises on its sequential path, it returns a
    failed response with the text "All models failed". *)
Theorem exhausted_failover_reports
    (registry : Registry) (sdk : Providers) (st : State) (prompt : string)
    (model_type : ModelType) (prefer_speed prefer_quality : bool) (max_cost : option Q)
    (lib : Json.PyLib) (env : Orchestrator.Env) (routing : Orchestrator.Routing)
    (finished : list nat) (task_type : Orchestrator.TaskType) (content : string)
    (context : option Json.json) (log : Orchestrator.Log)
    (m0 : Orchestrator.AIModel) (rest : list Orchestrator.AIModel) :
  let models := _select_models registry model_type prefer_speed prefer_quality max_cost in
  (models <> [] ->
   Forall (fails sdk prompt) models ->
   exists e st',
     generate registry sdk st prompt model_type prefer_speed prefer_quality max_cost
     = (inl (AllModelsFailed model_type (Some e)), st')
     /\ (exists last_model,
            last models = Some last_model /\ route sdk prompt last_model = inl e)
     /\ calls st' = (calls st ++ map ledger_key models)%list
     /\ total_errors (get_stats (ledger st'))
        = total_errors (get_stats (ledger st)) + Z.of_nat (List.length models)
     /\ request_count (ledger st') = request_count (ledger st)
     /\ total_cost (ledger st') = total_cost (ledger st))
  /\ (Py.dict_get Orchestrator.TaskType_eqb routing task_type = Some (m0 :: rest) ->
      Forall (call_fails (lib := lib) env task_type content context) (m0 :: rest) ->
      Orchestrator.process_task env routing finished task_type content context false log
      = (Some (Orchestrator.mkAIResponse false (Orchestrator.AIModel_value m0)
                 (Orchestrator.TaskType_value task_type) None (Py.Fin 0) 0
                 (Some (Orchestrator.Literal "All models failed"))),
         (log ++ m0 :: rest)%list)).
Proof.
  intros models.
  split; [|intros Hroute Hcalls; now apply process_task_all_fail].
  intros Hne Hall.
  unfold generate. fold models.
  destruct (try_models_all_fail sdk prompt model_type models None st Hall)
    as (st' & Hrun & Hl & Hc).
  destruct models as [|c0 cs] eqn:Em; [contradiction|].
  assert (Hlast : exists e last_model,
             fold_left (fun acc m => match route sdk prompt m with
                                     | inl e => Some e
                                     | inr _ => acc
                                     end) (c0 :: cs) None = Some e
             /\ last (c0 :: cs) = Some last_model
             /\ route sdk prompt last_model = inl e).
  { clear Hrun Hl Hc Hne Em. generalize (@None ProviderError) as acc.
    revert c0 Hall. induction cs as [|c1 cs IH]; intros c0 Hall acc.
    - apply Forall_inv in Hall. destruct Hall as [e He].
      exists e, c0. simpl. now rewrite He.
    - pose proof (Forall_inv_tail Hall) as Htl.
      destruct (IH c1 Htl (match route sdk prompt c0 with
                           | inl e => Some e
                           | inr _ => acc
                           end)) as (e & lm & Hf & Hlm & Hr).
      exists e, lm. split; [exact Hf|]. split; [exact Hlm|exact Hr]. }
  destruct Hlast as (e & lm & Hfold & Hlm & Hroute_last).
  exists e, st'. rewrite Hrun, Hfold. split; [reflexivity|].
  split; [now exists lm|].
  split; [exact Hc|].
  rewrite Hl. cbn [get_stats total_errors].
  rewrite charge_errors_total, charge_errors_requests, charge_errors_cost.
  now repeat split.
Qed.

End ExhaustionProps.

Section ExhaustionExamples.
Import Json Orchestrator.

Lemma env_all_down_fails (task_type : TaskType) (content : string)
    (context : option json) (m : AIModel) :
  call_fails (lib := CPython) env_all_down task_type content context m.
Proof. intros log. destruct m; eexists; reflexivity. Qed.

Lemma sdk_all_down_fails (prompt : string) (m : MultiModel.ModelConfig) :
  fails sdk_all_down prompt m.
Proof.
  unfold fails, MultiModel.route. destruct (MultiModel.provider m); eexists; reflexivity.
Qed.

(** Both entry points with every provider down. *)
Lemma exhausted_failover_reports_witness :
  (exists e st',
      MultiModel.generate MultiModel.MODEL_REGISTRY sdk_all_down
        (MultiModel.mkState MultiModel.init []) "Summarise." MultiModel.ANALYSIS
        false true None
      = (inl (MultiModel.AllModelsFailed MultiModel.ANALYSIS (Some e)), st')
      /\ e = MultiModel.mkProviderError "auth"
      /\ MultiModel.calls st'
         = [ "anthropic/claude-3-opus-20240229"; "openai/gpt-4-turbo-preview";
             "google/gemini-1.5-pro-latest" ]
      /\ MultiModel.total_errors (MultiModel.get_stats (MultiModel.ledger st')) = 3)
  /\ process_task (lib := CPython) env_all_down model_routing [] ACTION_EXTRACTION
                  "notes" None false []
     = (Some (mkAIResponse false "claude-3-5-sonnet-20241022" "action_extraction"
                           None (Py.Fin 0) 0 (Some (Literal "All models failed"))),
        [CLAUDE_SONNET; GPT4_TURBO]).
Proof.
  pose proof (exhausted_failover_reports MultiModel.MODEL_REGISTRY sdk_all_down
                (MultiModel.mkState MultiModel.init []) "Summarise." MultiModel.ANALYSIS
                false true None CPython env_all_down model_routing []
                ACTION_EXTRACTION "notes" None [] CLAUDE_SONNET [GPT4_TURBO]) as [Hg Hp].
  split.
  - destruct Hg as (e & st' & Hrun & (lm & Hlast & Hroute) & Hcalls & Herr & _).
    + vm_compute. discriminate.
    + apply Forall_forall. intros m _. apply sdk_all_down_fails.
    + exists e, st'. split; [exact Hrun|].
      vm_compute in Hlast. injection Hlast as <-.
      vm_compute in Hroute. injection Hroute as <-.
      split; [reflexivity|]. split; [exact Hcalls|].
      rewrite Herr. reflexivity.
  - apply Hp; [reflexivity|].
    apply Forall_forall. intros m _. apply env_all_down_fails.
Defined.

(** C3 as stated fails for [process_task]: with every candidate raising a
    provider error, the call returns instead of raising, and the error text
    of the response is the fixed "All models failed", not the text of any
    exception. *)
Lemma process_task_returns_when_all_fail :
  Forall (call_fails (lib := CPython) env_all_down ACTION_EXTRACTION "notes" None)
         [CLAUDE_SONNET; GPT4_TURBO]
  /\ exists r,
       process_task (lib := CPython) env_all_down model_routing [] ACTION_EXTRACTION
                    "notes" None false []
       = (Some r, [CLAUDE_SONNET; GPT4_TURBO])
       /\ error r = Some (Literal "All models failed")
       /\ forall e, error r <> Some (StrOf e).
Proof.
  split.
  - apply Forall_forall. intros m _. apply env_all_down_fails.
  - eexists. split; [reflexivity|]. split; [reflexivity|].
    intros e. discriminate.
Qed.

End ExhaustionExamples.

Section UnknownCategoryProps.
Import MultiModel.

Lemma call_model_success {lib : Json.PyLib} (env : Orchestrator.Env)
    (m : Orchestrator.AIModel) (task_type : Orchestrator.TaskType) (content : string)
    (context : option Json.json) (log log' : Orchestrator.Log)
    (r : Orchestrator.AIResponse) :
  Orchestrator._call_model env m task_type content context log = (inr r, log') ->
  Orchestrator.success r = true.
Proof.
  unfold Orchestrator._call_model.
  destruct (if Orchestrator.member m _ then _ else _) as [[e|res] l]; [discriminate|].
  destruct (Orchestrator._calculate_confidence res task_type); [discriminate|].
  intros [= <- _]. reflexivity.
Qed.

(** Every member of either enumeration has an entry in the table shipped
    for it. *)
Lemma MODEL_REGISTRY_total (model_type : ModelType) :
  Py.dict_get ModelType_eqb MODEL_REGISTRY model_type <> None.
Proof. destruct model_type; discriminate. Qed.

Lemma model_routing_total (task_type : Orchestrator.TaskType) :
  Py.dict_get Orchestrator.TaskType_eqb Orchestrator.model_routing task_type <> None.
Proof. destruct task_type; discriminate. Qed.

(** C4, as the code has it. For a category with no entry in the registry,
    [generate] finds no candidate and raises at once: no provider is called
    and the ledger is untouched.  For a task type with no entry in the
    routing table, [process_task] does not fail: it routes the task to the
    default list [[CLAUDE_SONNET]], calls that model, and returns its
    response, or the all-models-failed response when the call raises. *)
Theorem unknown_category_handling
    (registry : Registry) (sdk : Providers) (st : State) (prompt : string)
    (model_type : ModelType) (prefer_speed prefer_quality : bool) (max_cost : option Q)
    (lib : Json.PyLib) (env : Orchestrator.Env) (routing : Orchestrator.Routing)
    (finished : list nat) (task_type : Orchestrator.TaskType) (content : string)
    (context : option Json.json) (use_parallel : bool) (log : Orchestrator.Log) :
  (Py.dict_get ModelType_eqb registry model_type = None ->
   generate registry sdk st prompt model_type prefer_speed prefer_quality max_cost
   = (inl (NoAvailableModels model_type), st))
  /\ (Py.dict_get Orchestrator.TaskType_eqb routing task_type = None ->
      Orchestrator.process_task env routing finished task_type content context
                                use_parallel log
      = (Some match (Orchestrator._call_model env Orchestrator.CLAUDE_SONNET
                       task_type content context log).1 with
              | inr response => response
              | inl _ =>
                  Orchestrator.mkAIResponse false "claude-3-5-sonnet-20241022"
                    (Orchestrator.TaskType_value task_type) None (Py.Fin 0) 0
                    (Some (Orchestrator.Literal "All models failed"))
              end,
         (log ++ [Orchestrator.CLAUDE_SONNET])%list)).
Proof.
  split.
  - intros Hnone. unfold generate, _select_models. now rewrite Hnone.
  - intros Hnone. unfold Orchestrator.process_task. rewrite Hnone.
    cbn [from_option id List.length Z.of_nat]. rewrite andb_false_r.
    cbn [Orchestrator.first_success].
    pose proof (call_model_log env Orchestrator.CLAUDE_SONNET task_type content context log)
      as Hlog.
    destruct (Orchestrator._call_model env Orchestrator.CLAUDE_SONNET task_type
                content context log) as [[e|r] log1] eqn:Ec;
      cbn [fst snd] in *; subst log1.
    + reflexivity.
    + now rewrite (call_model_success env _ _ _ _ _ _ r Ec).
Qed.

End UnknownCategoryProps.

Section UnknownCategoryExamples.
Import Json Orchestrator.

(** A registry without the code category, and a routing table without
    meeting scoring. *)
Lemma unknown_category_handling_witness :
  MultiModel.generate [ (MultiModel.ANALYSIS, [cand_A]) ] sdk_anthropic_down
    (MultiModel.mkState MultiModel.init []) "Write a parser." MultiModel.CODE
    false false None
  = (inl (MultiModel.NoAvailableModels MultiModel.CODE),
     MultiModel.mkState MultiModel.init [])
  /\ (process_task (lib := CPython) env_two_answers routing_sentiment_only []
                   MEETING_SCORING "notes" None true []).2
     = [CLAUDE_SONNET].
Proof.
  pose proof (unknown_category_handling [ (MultiModel.ANALYSIS, [cand_A]) ]
                sdk_anthropic_down (MultiModel.mkState MultiModel.init [])
                "Write a parser." MultiModel.CODE false false None
                CPython env_two_answers routing_sentiment_only []
                MEETING_SCORING "notes" None true []) as [Hg Hp].
  split.
  - apply Hg. reflexivity.
  - rewrite Hp; reflexivity.
Defined.

(** C4 as stated fails for [process_task]: a task type missing from the
    routing table is routed to the default model, which is called and whose
    answer is returned. *)
Lemma unknown_task_type_is_routed_to_default :
  Py.dict_get TaskType_eqb routing_sentiment_only MEETING_SCORING = None
  /\ exists r,
       process_task (lib := CPython) env_two_answers routing_sentiment_only []
                    MEETING_SCORING "notes" None false []
       = (Some r, [CLAUDE_SONNET])
       /\ success r = true
       /\ model r = "claude-3-5-sonnet-20241022".
Proof.
  split; [reflexivity|].
  eexists. split; [reflexivity|]. split; reflexivity.
Qed.

End UnknownCategoryExamples.

(** ** Python string operations *)

Section StringFacts.
#[local] Arguments String.append !s1 s2 : simpl nomatch.

Lemma str_length_app (s t : string) :
  String.length (s ++ t) = (String.length s + String.length t)%nat.
Proof. induction s as [|c s IH]; simpl; [reflexivity|now rewrite IH]. Qed.

Lemma str_app_assoc (s t u : string) : (s ++ t) ++ u = s ++ t ++ u.
Proof. induction s as [|c s IH]; simpl; [reflexivity|now rewrite IH]. Qed.

Lemma skip_app (s t : string) : Py.skip (String.length s) (s ++ t) = t.
Proof. induction s as [|c s IH]; simpl; [reflexivity|exact IH]. Qed.

Lemma keep_app (s t : string) : Py.keep (String.length s) (s ++ t) = s.
Proof. induction s as [|c s IH]; simpl; [reflexivity|now rewrite IH]. Qed.

Lemma startswith_length (p s : string) :
  Py.startswith p s = true -> (String.length p <= String.length s)%nat.
Proof.
  revert s. induction p as [|a p IH]; intros s H; simpl in *; [lia|].
  destruct s as [|b s]; [discriminate|].
  destruct (Ascii.eqb a b); [|discriminate]. apply IH in H. simpl. lia.
Qed.

(** An occurrence found by [index_of] lies inside the string. *)
Lemma index_of_bound (sub s : string) (i : nat) :
  Py.index_of sub s = Some i -> (i + String.length sub <= String.length s)%nat.
Proof.
  revert i. induction s as [|c s IH]; intros i H.
  - simpl in H. destruct (Py.startswith sub "") eqn:E; [|discriminate].
    injection H as <-. apply startswith_length in E. simpl in *. lia.
  - cbn [Py.index_of] in H. destruct (Py.startswith sub (String c s)) eqn:E.
    + injection H as <-. apply startswith_length in E. simpl in *. lia.
    + destruct (Py.index_of sub s) as [j|]; [|discriminate].
      injection H as <-. specialize (IH j eq_refl). simpl. lia.
Qed.

(** [s.find(sub, start)] through [index_of] on the rest of the string. *)
Lemma find_from (s sub : string) (start : nat) :
  (start <= String.length s)%nat ->
  Py.find s sub (Z.of_nat start)
  = match Py.index_of sub (Py.skip start s) with
    | Some i => Z.of_nat (start + i)
    | None => -1
    end.
Proof.
  intros Hle. unfold Py.find, Py.len.
  destruct (Z.ltb_spec (Z.of_nat (String.length s)) (Z.of_nat start)); [lia|].
  rewrite Nat2Z.id. destruct (Py.index_of sub (Py.skip start s)); [|reflexivity].
  lia.
Qed.

(** [s.find(sub)] *)
Lemma find_from_start (s sub : string) :
  Py.find s sub 0
  = match Py.index_of sub s with
    | Some i => Z.of_nat i
    | None => -1
    end.
Proof. apply (find_from s sub 0). lia. Qed.

(** [s[a:b]] for [0 <= a <= b <= len(s)]. *)
Lemma slice_inside (s : string) (a b : nat) :
  (a <= b)%nat -> (b <= String.length s)%nat ->
  Py.slice s (Z.of_nat a) (Z.of_nat b) = Py.keep (b - a) (Py.skip a s).
Proof.
  intros Hab Hb. unfold Py.slice, Py.clamp, Py.len.
  destruct (Z.ltb_spec (Z.of_nat a) 0); [lia|].
  destruct (Z.ltb_spec (Z.of_nat b) 0); [lia|].
  rewrite !Z.min_r by lia. rewrite !Z.max_r by lia.
  rewrite Nat2Z.id. f_equal. lia.
Qed.

(** [s[a:-1]] for [0 <= a <= len(s)]: from [a] on, without the last
    character of [s]. *)
Lemma slice_to_minus_one (s : string) (a : nat) :
  (a <= String.length s)%nat ->
  Py.slice s (Z.of_nat a) (-1)
  = Py.keep (String.length s - 1 - a) (Py.skip a s).
Proof.
  intros Ha. unfold Py.slice, Py.clamp, Py.len.
  destruct (Z.ltb_spec (Z.of_nat a) 0); [lia|].
  change (-1 <? 0) with true. cbn iota.
  rewrite (Z.min_r _ (Z.of_nat a)) by lia. rewrite (Z.max_r _ (Z.of_nat a)) by lia.
  rewrite Nat2Z.id. f_equal. lia.
Qed.

End StringFacts.

(** ** The response interpreter *)

Section ExtractionProps.
Import Json Orchestrator.

Lemma startswith_prefix (p q s : string) :
  Py.startswith (p ++ q) s = true -> Py.startswith p s = true.
Proof.
  revert s. induction p as [|a p IH]; intros s H; simpl in *; [reflexivity|].
  destruct s as [|b s]; [discriminate|].
  destruct (Ascii.eqb a b); [now apply IH|discriminate].
Qed.

Lemma startswith_fence (s : string) :
  Py.startswith "```json" s = true -> Py.startswith "```" s = true.
Proof. apply (startswith_prefix "```" "json"). Qed.

(** A text without a fence has no tagged fence either. *)
Lemma no_fence_no_tag (s : string) :
  Py.index_of "```" s = None -> Py.index_of "```json" s = None.
Proof.
  induction s as [|c s IH]; intros H.
  - reflexivity.
  - cbn [Py.index_of] in *.
    destruct (Py.startswith "```" (String c s)) eqn:E; [discriminate|].
    destruct (Py.startswith "```json" (String c s)) eqn:E'.
    + apply startswith_fence in E'. congruence.
    + destruct (Py.index_of "```" s); [discriminate|]. now rewrite IH.
Qed.

(** The content between an opening marker found at [length pre] and the
    next fence after it. *)
Lemma fenced_content (marker pre body post : string) :
  let text := pre ++ marker ++ body ++ "```" ++ post in
  Py.index_of marker text = Some (String.length pre) ->
  Py.index_of "```" (body ++ "```" ++ post) = Some (String.length body) ->
  let json_start := Py.find text marker 0 + Py.len marker in
  let json_end := Py.find text "```" json_start in
  Py.contains text marker = true
  /\ Py.slice text json_start json_end = body.
Proof.
  intros text Hopen Hclose json_start json_end.
  assert (Hlen : String.length text
                 = (String.length pre + String.length marker
                    + (String.length body + (3 + String.length post)))%nat).
  { subst text. rewrite !str_length_app. simpl. lia. }
  assert (Hskip : Py.skip (String.length pre + String.length marker) text
                  = body ++ "```" ++ post).
  { subst text. rewrite <- (str_app_assoc pre marker), <- str_length_app.
    apply skip_app. }
  split; [unfold Py.contains; now rewrite Hopen|].
  assert (Hstart : json_start = Z.of_nat (String.length pre + String.length marker)).
  { subst json_start. rewrite find_from_start, Hopen. unfold Py.len. lia. }
  assert (Hend : json_end
                 = Z.of_nat (String.length pre + String.length marker + String.length body)).
  { subst json_end. rewrite Hstart. rewrite find_from by lia.
    rewrite Hskip, Hclose. reflexivity. }
  rewrite Hstart, Hend. rewrite slice_inside by lia.
  rewrite Hskip.
  replace (String.length pre + String.length marker + String.length body
           - (String.length pre + String.length marker))%nat
    with (String.length body) by lia.
  apply keep_app.
Qed.

(** An opening marker found at [length pre] with no fence after it: the
    search for the closing fence yields -1, and the slice runs from the end
    of the marker to the last character of the text, excluded. *)
Lemma unclosed_content (marker pre rest : string) :
  let text := pre ++ marker ++ rest in
  Py.index_of marker text = Some (String.length pre) ->
  Py.index_of "```" rest = None ->
  let json_start := Py.find text marker 0 + Py.len marker in
  let json_end := Py.find text "```" json_start in
  Py.contains text marker = true
  /\ json_end = -1
  /\ Py.slice text json_start json_end = Py.keep (String.length rest - 1) rest.
Proof.
  intros text Hopen Hclose json_start json_end.
  assert (Hlen : String.length text
                 = (String.length pre + String.length marker + String.length rest)%nat).
  { subst text. rewrite !str_length_app. lia. }
  assert (Hskip : Py.skip (String.length pre + String.length marker) text = rest).
  { subst text. rewrite <- (str_app_assoc pre marker), <- str_length_app.
    apply skip_app. }
  split; [unfold Py.contains; now rewrite Hopen|].
  assert (Hstart : json_start = Z.of_nat (String.length pre + String.length marker)).
  { subst json_start. rewrite find_from_start, Hopen. unfold Py.len. lia. }
  assert (Hend : json_end = -1).
  { subst json_end. rewrite Hstart. rewrite find_from by lia.
    now rewrite Hskip, Hclose. }
  split; [exact Hend|].
  rewrite Hstart, Hend. rewrite slice_to_minus_one by lia.
  rewrite Hskip. f_equal. lia.
Qed.

End ExtractionProps.

Section InterpreterProps.
Import Json Orchestrator.
Context {lib : PyLib}.

(** [_parse_response] returns what [json.loads] decoded, or else the
    fallback dict around the original text; it raises what [json.loads]
    raises other than [JSONDecodeError]. *)
Lemma parse_response_cases (text : string) (task_type : TaskType) :
  (exists v, json_loads (json_str text) = Loaded v
             /\ _parse_response text task_type = inr v)
  \/ (json_loads (json_str text) = JSONDecodeError
      /\ _parse_response text task_type
         = inr (JObj [(codes "raw_response", JStr (codes text));
                      (codes "parsed", JBool false)]))
  \/ (exists e, json_loads (json_str text) = Raises e
                /\ _parse_response text task_type = inl e).
Proof.
  unfold _parse_response, raw_fallback.
  destruct (json_loads (json_str text)) as [v| |e];
    [left; now exists v|right; left; now split|right; right; now exists e].
Qed.

(** An opening fence with no closing fence after it: the search for the
    closing fence yields -1 and the text handed to the decoder runs from the
    end of the opening marker to the last character of the response,
    excluded. *)
Lemma json_str_unclosed (pre rest : string) :
  (Py.index_of "```json" (pre ++ "```json" ++ rest) = Some (String.length pre) ->
   Py.index_of "```" rest = None ->
   Py.find (pre ++ "```json" ++ rest) "```"
           (Py.find (pre ++ "```json" ++ rest) "```json" 0 + 7) = -1
   /\ json_str (pre ++ "```json" ++ rest)
      = Py.strip (Py.keep (String.length rest - 1) rest))
  /\ (Py.index_of "```json" (pre ++ "```" ++ rest) = None ->
      Py.index_of "```" (pre ++ "```" ++ rest) = Some (String.length pre) ->
      Py.index_of "```" rest = None ->
      Py.find (pre ++ "```" ++ rest) "```"
              (Py.find (pre ++ "```" ++ rest) "```" 0 + 3) = -1
      /\ json_str (pre ++ "```" ++ rest)
         = Py.strip (Py.keep (String.length rest - 1) rest)).
Proof.
  split.
  - intros Hopen Hclose.
    destruct (unclosed_content "```json" pre rest Hopen Hclose) as (Hc & He & Hs).
    change (Py.len "```json") with 7 in He, Hs.
    split; [exact He|]. unfold json_str. now rewrite Hc, Hs.
  - intros Hno Hopen Hclose.
    destruct (unclosed_content "```" pre rest Hopen Hclose) as (Hc & He & Hs).
    change (Py.len "```") with 3 in He, Hs.
    split; [exact He|]. unfold json_str.
    unfold Py.contains at 1. now rewrite Hno, Hc, Hs.
Qed.

(** The interpretation of a response.  The text handed to the decoder is, stripped of
    surrounding whitespace, the content of the first fenced block tagged
    [json] if there is one, else the content of the first fenced block, else
    the whole response.  When decoding fails, the result is the dict with
    the original text under [raw_response] and [parsed] false, and the
    confidence is 0.5.  When decoding yields a map, the result is that map
    and the confidence is [float] of its top-level [confidence] entry if it
    has one, else [float] of the [confidence] entry of the map under
    [overall_sentiment] if there is one, else 0.85, or 0.5 when the map
    itself carries a false [parsed] entry. *)
Theorem interpret_response (text : string) (task_type : TaskType) :
  let candidate := json_str text in
  let result := _parse_response text task_type in
  (forall pre body post,
      text = pre ++ "```json" ++ body ++ "```" ++ post ->
      Py.index_of "```json" text = Some (String.length pre) ->
      Py.index_of "```" (body ++ "```" ++ post) = Some (String.length body) ->
      candidate = Py.strip body)
  /\ (forall pre body post,
         text = pre ++ "```" ++ body ++ "```" ++ post ->
         Py.index_of "```json" text = None ->
         Py.index_of "```" text = Some (String.length pre) ->
         Py.index_of "```" (body ++ "```" ++ post) = Some (String.length body) ->
         candidate = Py.strip body)
  /\ (Py.index_of "```" text = None -> candidate = Py.strip text)
  /\ (json_loads candidate = JSONDecodeError ->
      result = inr (JObj [(codes "raw_response", JStr (codes text));
                          (codes "parsed", JBool false)])
      /\ _calculate_confidence
           (JObj [(codes "raw_response", JStr (codes text));
                  (codes "parsed", JBool false)]) task_type
         = inr (Py.double 0.5))
  /\ (forall d,
         json_loads candidate = Loaded (JObj d) ->
         result = inr (JObj d)
         /\ (forall c, get d "confidence" = Some c ->
                       _calculate_confidence (JObj d) task_type = py_float c)
         /\ (forall os c,
                get d "confidence" = None ->
                get d "overall_sentiment" = Some (JObj os) ->
                get os "confidence" = Some c ->
                _calculate_confidence (JObj d) task_type = py_float c)
         /\ (get d "confidence" = None ->
             no_nested_confidence d ->
             _calculate_confidence (JObj d) task_type
             = inr (if truthy (default (JBool true) (get d "parsed"))
                    then Py.double 0.85 else Py.double 0.5))
         /\ (get d "confidence" = None ->
             no_nested_confidence d ->
             get d "parsed" = None ->
             _calculate_confidence (JObj d) task_type = inr (Py.double 0.85))).
Proof.
  intros candidate result.
  split; [|split; [|split; [|split]]].
  - intros pre body post -> Hopen Hclose.
    destruct (fenced_content "```json" pre body post Hopen Hclose) as [Hc Hs].
    change (Py.len "```json") with 7 in Hs.
    subst candidate. unfold json_str. now rewrite Hc, Hs.
  - intros pre body post -> Hno Hopen Hclose.
    destruct (fenced_content "```" pre body post Hopen Hclose) as [Hc Hs].
    change (Py.len "```") with 3 in Hs.
    subst candidate. unfold json_str. unfold Py.contains at 1.
    now rewrite Hno, Hc, Hs.
  - intros Hno. subst candidate. unfold json_str, Py.contains.
    now rewrite (no_fence_no_tag text Hno), Hno.
  - intros Hfail. subst result candidate. unfold _parse_response.
    rewrite Hfail. split; reflexivity.
  - intros d Hd. subst result candidate. unfold _parse_response. rewrite Hd.
    split; [reflexivity|].
    assert (Hdefault :
              get d "confidence" = None -> no_nested_confidence d ->
              _calculate_confidence (JObj d) task_type
              = inr (if truthy (default (JBool true) (get d "parsed"))
                     then Py.double 0.85 else Py.double 0.5)).
    { intros Hn Hnested. cbn [_calculate_confidence]. rewrite Hn.
      destruct Hnested as [Hos|(os & Hos & Hhas)]; rewrite Hos.
      - now destruct (truthy _).
      - rewrite Hhas. now destruct (truthy _). }
    split; [|split; [|split]].
    + intros c Hc. cbn [_calculate_confidence]. now rewrite Hc.
    + intros os c Hn Hos Hc. cbn [_calculate_confidence].
      rewrite Hn, Hos. cbn [has_confidence item_confidence]. now rewrite Hc.
    + exact Hdefault.
    + intros Hn Hnested Hp. rewrite (Hdefault Hn Hnested), Hp. reflexivity.
Qed.

Lemma calculate_confidence_cases (res : json) (task_type : TaskType) (q : Py.float) :
  _calculate_confidence res task_type = inr q ->
  q = Py.double 0.85 \/ q = Py.double 0.5 \/ explicit_confidence res q.
Proof.
  destruct res as [| | | | | |d]; try discriminate.
  cbn [_calculate_confidence].
  destruct (get d "confidence") as [c|] eqn:Ec.
  - intros H. right. right. exists d, c. split; [reflexivity|].
    split; [left; exact Ec|exact H].
  - assert (Hdef : (if truthy (default (JBool true) (get d "parsed"))
                    then inr (Py.double 0.85) else inr (Py.double 0.5))
                   = @inr exn Py.float q ->
                   q = Py.double 0.85 \/ q = Py.double 0.5
                   \/ explicit_confidence (JObj d) q).
    { destruct (truthy _); intros [= <-]; auto. }
    destruct (get d "overall_sentiment") as [os|] eqn:Eos; [|exact Hdef].
    destruct (has_confidence os) as [e|[|]]; [discriminate| |exact Hdef].
    destruct (item_confidence os) as [e|c] eqn:Ei; [discriminate|].
    intros H. right. right. exists d, c. split; [reflexivity|].
    split; [right; split; [exact Ec|now exists os]|exact H].
Qed.

Lemma call_model_confidence (env : Env) (task_type : TaskType) (content : string)
    (context : option json) (r : AIResponse) :
  from_call env task_type content context r ->
  exists res, result r = Some res
              /\ _calculate_confidence res task_type = inr (confidence r).
Proof.
  intros (m & log & log' & H). unfold _call_model in H.
  destruct (if member m _ then _ else _) as [[e|res] l]; [discriminate|].
  destruct (_calculate_confidence res task_type) as [e|c] eqn:Ec; [discriminate|].
  injection H as <- _. exists res. now split.
Qed.

Lemma start_all_from_call (env : Env) (models : list AIModel) (task_type : TaskType)
    (content : string) (context : option json) (log : Log) (r : AIResponse) :
  In (inr r) (start_all env models task_type content context log).1 ->
  from_call env task_type content context r.
Proof.
  revert log. induction models as [|m models IH]; intros log; simpl; [tauto|].
  destruct (_call_model env m task_type content context log) as [o log1] eqn:Ec.
  destruct (start_all env models task_type content context log1) as [rs log2] eqn:Es.
  simpl. intros [->|Hin].
  - now exists m, log, log1.
  - apply (IH log1). now rewrite Es.
Qed.

Lemma first_success_from_call (env : Env) (models : list AIModel) (task_type : TaskType)
    (content : string) (context : option json) (log log' : Log) (r : AIResponse) :
  first_success env models task_type content context log = (Some r, log') ->
  from_call env task_type content context r.
Proof.
  revert log. induction models as [|m models IH]; intros log; simpl; [discriminate|].
  destruct (_call_model env m task_type content context log) as [[e|r0] log1] eqn:Ec.
  - apply IH.
  - destruct (success r0); [|apply IH].
    intros [= <- _]. now exists m, log, log1.
Qed.

Lemma valid_responses_In (responses : list (exn + AIResponse)) (r : AIResponse) :
  In r (valid_responses responses) -> In (inr r) responses.
Proof.
  induction responses as [|[e|a] rs IH]; simpl; [tauto| |].
  - intros H. right. now apply IH.
  - unfold valid_responses in *. simpl. destruct (success a); simpl.
    + intros [->|H]; [now left|right; now apply IH].
    + intros H. right. now apply IH.
Qed.

(** Where the response of [process_task] comes from: a call to a model, or
    one of the two failure responses, whose confidence is 0. *)
Lemma process_task_origin (env : Env) (routing : Routing) (finished : list nat)
    (task_type : TaskType) (content : string) (context : option json)
    (use_parallel : bool) (log log' : Log) (r : AIResponse) :
  process_task env routing finished task_type content context use_parallel log
  = (Some r, log') ->
  from_call env task_type content context r
  \/ (success r = false /\ result r = None /\ confidence r = Py.Fin 0).
Proof.
  unfold process_task.
  set (models := default [CLAUDE_SONNET] (Py.dict_get TaskType_eqb routing task_type)).
  destruct (use_parallel && (1 <? Z.of_nat (List.length models))).
  - destruct (start_all env (take 2 models) task_type content context log)
      as [outcomes log1] eqn:Es.
    destruct (gather outcomes finished) as [responses|] eqn:Eg; [|discriminate].
    apply gather_waits in Eg. destruct Eg as [-> _].
    destruct (valid_responses outcomes) as [|r0 rest] eqn:Ev.
    + destruct models as [|m0 ms]; [intros [= <- _]; right; now repeat split|].
      destruct (_call_model env m0 task_type content context log1) as [[e|r1] log2] eqn:Ec.
      * intros [= <- _]. right. now repeat split.
      * intros [= <- _]. left. now exists m0, log1, log2.
    + intros [= <- _]. left.
      apply (start_all_from_call env (take 2 models) task_type content context log).
      rewrite Es. cbn [fst]. apply valid_responses_In. rewrite Ev.
      apply max_by_In.
  - destruct (first_success env models task_type content context log)
      as [[r0|] log1] eqn:Ef.
    + intros [= <- _]. left. now apply (first_success_from_call _ _ _ _ _ _ _ _ Ef).
    + destruct models; intros [= <- _]; right; now repeat split.
Qed.

(** C7, as the code has it. The confidence of the response of
    [process_task] is 0 (a failed response), 0.5 or 0.85, and so within
    [0, 1], unless the decoded map carries an explicit confidence entry, at
    top level or under [overall_sentiment]: it is then [float] of that
    entry, whatever its value. *)
Theorem confidence_in_range_unless_explicit
    (env : Env) (routing : Routing) (finished : list nat) (task_type : TaskType)
    (content : string) (context : option json) (use_parallel : bool)
    (log log' : Log) (r : AIResponse) :
  process_task env routing finished task_type content context use_parallel log
  = (Some r, log') ->
  ((confidence r = Py.Fin 0 \/ confidence r = Py.double 0.5
    \/ confidence r = Py.double 0.85)
   /\ Py.float_le (Py.Fin 0) (confidence r) /\ Py.float_le (confidence r) (Py.Fin 1))
  \/ (exists res, result r = Some res /\ explicit_confidence res (confidence r)).
Proof.
  intros H. apply process_task_origin in H. destruct H as [Hcall|(_ & _ & H0)].
  - apply call_model_confidence in Hcall. destruct Hcall as (res & Hres & Hc).
    apply calculate_confidence_cases in Hc. destruct Hc as [Hc|[Hc|Hc]].
    + left. rewrite Hc. split; [auto|]. split; reflexivity.
    + left. rewrite Hc. split; [auto|]. split; reflexivity.
    + right. now exists res.
  - left. rewrite H0. split; [auto|]. split; reflexivity.
Qed.

End InterpreterProps.

Section InterpreterExamples.
Import Json Orchestrator.

(** A fenced answer with an explicit confidence, a text that is not JSON,
    and a map without confidence. *)
Lemma interpret_response_witness :
  json_str text_fenced = Py.strip (nl ++ dq "{'confidence': 0.92, 'x': 1}" ++ nl)
  /\ _parse_response (lib := CPython) text_fenced ACTION_EXTRACTION
     = inr (JObj [(codes "confidence", JFloat (Py.double 0.92)); (codes "x", JInt 1)])
  /\ _calculate_confidence (lib := CPython)
       (JObj [(codes "confidence", JFloat (Py.double 0.92)); (codes "x", JInt 1)])
       ACTION_EXTRACTION
     = inr (Py.double 0.92)
  /\ _parse_response (lib := CPython) "not json at all" ACTION_EXTRACTION
     = inr (JObj [(codes "raw_response", JStr (codes "not json at all"));
                  (codes "parsed", JBool false)])
  /\ _calculate_confidence (lib := CPython)
       (JObj [(codes "raw_response", JStr (codes "not json at all"));
              (codes "parsed", JBool false)])
       ACTION_EXTRACTION
     = inr (Py.double 0.5)
  /\ _calculate_confidence (lib := CPython)
       (JObj [(codes "summary", JStr (codes "ok"))]) ACTION_EXTRACTION
     = inr (Py.double 0.85).
Proof.
  pose proof (interpret_response (lib := CPython) text_fenced ACTION_EXTRACTION)
    as (Htag & _ & _ & _ & Hmap).
  pose proof (interpret_response (lib := CPython) "not json at all" ACTION_EXTRACTION)
    as (_ & _ & Hplain & Hfail & _).
  pose proof (interpret_response (lib := CPython) (dq "{'summary': 'ok'}") ACTION_EXTRACTION)
    as (_ & _ & _ & _ & Hdef).
  split.
  { apply (Htag ("Sure, here you go:" ++ nl)
                (nl ++ dq "{'confidence': 0.92, 'x': 1}" ++ nl) ""); reflexivity. }
  destruct (Hmap [(codes "confidence", JFloat (Py.double 0.92)); (codes "x", JInt 1)])
    as (Hres & Htop & _); [vm_compute; reflexivity|].
  split; [exact Hres|].
  split; [apply (Htop (JFloat (Py.double 0.92))); reflexivity|].
  destruct Hfail as [Hraw Hhalf]; [vm_compute; reflexivity|].
  split; [exact Hraw|]. split; [exact Hhalf|].
  destruct (Hdef [(codes "summary", JStr (codes "ok"))]) as (_ & _ & _ & _ & H85);
    [vm_compute; reflexivity|].
  apply H85; [reflexivity|left; reflexivity|reflexivity].
Defined.

(** C6 (the code departs from it). The response below decodes: parsing
    succeeds, and the decoded map has no confidence entry, at top level or
    nested.  Its confidence is 0.5, the value meant for a response that
    could not be decoded, not 0.85: the default is chosen from the [parsed]
    entry of the result, and the decoded document carries a false [parsed]
    entry of its own. *)
Theorem decoded_parsed_false_scores_half :
  let text := dq "{'parsed': false}" in
  json_loads (PyLib := CPython) (json_str text)
  = Loaded (JObj [(codes "parsed", JBool false)])
  /\ _parse_response (lib := CPython) text SUMMARY_GENERATION
     = inr (JObj [(codes "parsed", JBool false)])
  /\ get [(codes "parsed", JBool false)] "confidence" = None
  /\ get [(codes "parsed", JBool false)] "overall_sentiment" = None
  /\ _calculate_confidence (lib := CPython)
       (JObj [(codes "parsed", JBool false)]) SUMMARY_GENERATION
     = inr (Py.double 0.5)
  /\ (exists r,
        process_task (lib := CPython) env_parsed_false model_routing []
                     SUMMARY_GENERATION "notes" None false []
        = (Some r, [CLAUDE_SONNET])
        /\ success r = true
        /\ result r = Some (JObj [(codes "parsed", JBool false)])
        /\ confidence r = Py.double 0.5)
  /\ Py.float_lt (Py.double 0.5) (Py.double 0.85).
Proof.
  cbn zeta. repeat split; try (vm_compute; reflexivity).
  eexists. split; [vm_compute; reflexivity|]. repeat split.
Qed.

(** A run whose answer carries the explicit confidence 0.6. *)
Lemma confidence_in_range_unless_explicit_witness :
  exists r,
    process_task (lib := CPython) env_two_answers model_routing [] ACTION_EXTRACTION
                 "notes" None false []
    = (Some r, [CLAUDE_SONNET])
    /\ (((confidence r = Py.Fin 0 \/ confidence r = Py.double 0.5
          \/ confidence r = Py.double 0.85)
         /\ Py.float_le (Py.Fin 0) (confidence r)
         /\ Py.float_le (confidence r) (Py.Fin 1))
        \/ (exists res, result r = Some res
                        /\ explicit_confidence (lib := CPython) res (confidence r))).
Proof.
  eexists. split; [reflexivity|].
  eapply (confidence_in_range_unless_explicit (lib := CPython) env_two_answers
            model_routing [] ACTION_EXTRACTION "notes" None false []).
  reflexivity.
Defined.

(** C7 as stated fails: an explicit confidence of 7.5 in the answer is the
    confidence of the response. *)
Lemma explicit_confidence_is_not_clamped :
  exists r,
    process_task (lib := CPython) env_overconfident model_routing [] ACTION_EXTRACTION
                 "notes" None false []
    = (Some r, [CLAUDE_SONNET])
    /\ success r = true
    /\ confidence r = Py.double 7.5
    /\ ~ Py.float_le (confidence r) (Py.Fin 1).
Proof.
  eexists. split; [reflexivity|]. split; [reflexivity|].
  split; [reflexivity|]. intros H. now vm_compute in H.
Qed.

(** C10 (the code departs from it). A response that is a JSON array decodes
    successfully, and [_parse_response] returns the list, not a dict;
    [_calculate_confidence] then raises on it, so that the call to the model
    counts as failed although the provider answered.  And a response nested
    deeper than the recursion limit allows makes [json.loads], and with it
    [_parse_response], raise [RecursionError]. *)
Theorem parse_response_returns_non_dict :
  _parse_response (lib := CPython) "[1, 2]" ACTION_EXTRACTION
  = inr (JArr [JInt 1; JInt 2])
  /\ is_dict (JArr [JInt 1; JInt 2]) = false
  /\ _calculate_confidence (lib := CPython) (JArr [JInt 1; JInt 2]) ACTION_EXTRACTION
     = inl AttributeError
  /\ (_call_model (lib := CPython)
        (mkEnv (fun _ _ _ => inr "[1, 2]") (fun _ _ _ => inr "[1, 2]")
               (fun _ _ _ => inr "[1, 2]") (fun _ content _ => content) Py.len)
        CLAUDE_SONNET ACTION_EXTRACTION "notes" None []).1
     = inl AttributeError
  /\ _parse_response (lib := CPython) (nested_arrays 996) ACTION_EXTRACTION
     = inl RecursionError.
Proof. repeat split; vm_compute; reflexivity. Qed.

End InterpreterExamples.
